(** * HR analytics: data preparation pipeline and DAX-like measures

    A shallow embedding of [data_preparation.py] (class [HRDataModel]) and
    [dax_measures.py] (class [DAXMeasures]), followed by the properties of
    the written specification that concern them.

    Layout: the Python and pandas layer the two classes are written
    against ([Py], [PyFloat], [Pandas]); the two classes ([DataPreparation],
    [DaxMeasures]); the specification-side definitions ([Spec]) and sample
    tables ([Samples]); then the lemmas and theorems. *)

From Stdlib Require Import ZArith List String Ascii Bool Lia Floats Sorted Permutation.
Import ListNotations.

#[local] Open Scope string_scope.
#[local] Open Scope list_scope.
#[local] Open Scope Z_scope.
#[local] Set Warnings "-inexact-float".

(* ================================================================== *)
(** ** Python: exceptions and fallible computations *)

Module Py.

(** The exceptions the two modules can surface.  Neither module defines an
    exception class of its own, and neither contains a [raise] or an
    [except]: every failure is one raised by the interpreter or by pandas
    and propagates unchanged. *)
Inductive exn : Type :=
| KeyError (key : string)
| TypeError (what : string)
| AttributeError (what : string)
| ValueError (what : string)
| ZeroDivisionError
| FileNotFoundError (path : string)
| PermissionError (path : string)
| ParserError (path : string).



Inductive result (A : Type) : Type :=
| Ok (a : A)
| Raise (e : exn).

Arguments Ok {A} a.
Arguments Raise {A} e.

Definition bind {A B : Type} (c : result A) (k : A -> result B) : result B :=
  match c with
  | Ok a => k a
  | Raise e => Raise e
  end.

Definition is_ok {A : Type} (c : result A) : bool :=
  match c with Ok _ => true | Raise _ => false end.

(** Running a fallible step over a list, left to right, stopping at the
    first exception (a comprehension or [Series.apply]). *)
Fixpoint mapM {A B : Type} (f : A -> result B) (l : list A) : result (list B) :=
  match l with
  | [] => Ok []
  | x :: t =>
      bind (f x) (fun y => bind (mapM f t) (fun ys => Ok (y :: ys)))
  end.

(** [[x for x in l if p(x)]] with a fallible test. *)
Fixpoint filterM {A : Type} (p : A -> result bool) (l : list A) : result (list A) :=
  match l with
  | [] => Ok []
  | x :: t =>
      bind (p x) (fun b => bind (filterM p t) (fun ys => Ok (if b then x :: ys else ys)))
  end.

(** A [for] loop that rebinds one variable. *)
Fixpoint foldM {A S : Type} (step : S -> A -> result S) (l : list A) (s : S) : result S :=
  match l with
  | [] => Ok s
  | x :: t => bind (step s x) (foldM step t)
  end.

(** [l[:n]] for a Python [int] [n]: a negative bound counts from the end. *)
Definition slice_to {A : Type} (n : Z) (l : list A) : list A :=
  if 0 <=? n then firstn (Z.to_nat n) l
  else firstn (Z.to_nat (Z.of_nat (List.length l) + n)) l.

End Py.

Export Py.

Declare Scope py_scope.
Delimit Scope py_scope with py.
Notation "x <- c ;; k" := (bind c (fun x => k))
  (at level 61, c at next level, right associativity) : py_scope.
Notation "' pat <- c ;; k" := (bind c (fun x => match x with pat => k end))
  (at level 61, pat pattern, c at next level, right associativity) : py_scope.
#[local] Open Scope py_scope.

(* ================================================================== *)
(** ** Python floats

    A Python [float] is an IEEE 754 binary64 number.  It is represented by
    the standard library's [spec_float] with precision 53 and maximal
    exponent 1024, and the arithmetic is the library's specification of
    the correctly rounded operations. *)

Module PyFloat.

Definition pyfloat : Type := spec_float.

(** An integer as an exact (not yet rounded) operand. *)
Definition exact (z : Z) : spec_float :=
  match z with
  | Z0 => S754_zero false
  | Zpos p => S754_finite false p 0
  | Zneg p => S754_finite true p 0
  end.

Definition fmul : pyfloat -> pyfloat -> pyfloat := SFmul prec emax.
Definition fabs : pyfloat -> pyfloat := SFabs.
Definition fltb : pyfloat -> pyfloat -> bool := SFltb.
Definition fleb : pyfloat -> pyfloat -> bool := SFleb.

(** [math.isnan] / [np.isnan] *)
Definition isnan (x : pyfloat) : bool :=
  match x with S754_nan => true | _ => false end.

(** The literals [0.0] and [100]. *)
Definition zero : pyfloat := S754_zero false.
Definition hundred : pyfloat := Eval vm_compute in Prim2SF 100%float.

(** [a / b] on Python integers: the quotient of the two integers rounded
    once to the nearest float (CPython's [long_true_divide]); division by
    zero raises.  (CPython raises [OverflowError] where the rounded
    quotient would be infinite, which needs an operand beyond 2^1023.) *)
Definition int_truediv (a b : Z) : result pyfloat :=
  if b =? 0 then Raise ZeroDivisionError
  else Ok (SFdiv prec emax (exact a) (exact b)).

(** The integer nearest to [a / b], ties to the even one ([0 <= a], [0 < b]). *)
Definition round_half_even_div (a b : Z) : Z :=
  let q := a / b in
  let r := a mod b in
  match 2 * r ?= b with
  | Lt => q
  | Gt => q + 1
  | Eq => if Z.even q then q else q + 1
  end.

(** The integer nearest to [m * 2^e * 100], ties to even: the digits
    [float.__round__] obtains from the exact binary value of its argument. *)
Definition hundredths (m : positive) (e : Z) : Z :=
  match e with
  | Zneg p => round_half_even_div (Zpos m * 100) (2 ^ Zpos p)
  | _ => Zpos m * 100 * 2 ^ e
  end.

Definition with_sign (s : bool) (n : Z) : spec_float :=
  match n with
  | Zpos p => S754_finite s p 0
  | _ => S754_zero s
  end.

(** [round(x, 2)] on a Python [float]: the exact value of [x] is rounded
    to two decimals, ties to even, and the decimal result is converted
    back to the nearest float; zeros, infinities and NaN are returned as
    they are. *)
Definition py_round2 (x : pyfloat) : pyfloat :=
  match x with
  | S754_finite s m e => SFdiv prec emax (with_sign s (hundredths m e)) (exact 100)
  | _ => x
  end.

(** A float that carries the sign [s] and is not NaN. *)
Definition signed_as (s : bool) (x : spec_float) : Prop :=
  match x with
  | S754_zero s' | S754_infinity s' | S754_finite s' _ _ => s' = s
  | S754_nan => False
  end.

End PyFloat.

Export PyFloat.

(* ================================================================== *)
(** ** pandas: cells, rows, frames *)

Module Pandas.

(** A cell.  Numeric columns of the expected schema are integer valued;
    [VNaN] is the null marker (NaN, NaT, None); [VDate] is a timestamp in
    microseconds since the epoch. *)
Inductive value : Type :=
| VInt (z : Z)
| VStr (s : string)
| VDate (t : Z)
| VNaN.

Definition value_eqb (a b : value) : bool :=
  match a, b with
  | VInt x, VInt y => x =? y
  | VStr x, VStr y => String.eqb x y
  | VDate x, VDate y => x =? y
  | VNaN, VNaN => true
  | _, _ => false
  end.

Definition isna (v : value) : bool :=
  match v with VNaN => true | _ => false end.

(** Elementwise [==]: a null never compares equal. *)
Definition cell_eq (a b : value) : bool :=
  negb (isna a) && value_eqb a b.

(** Membership as [Series.isin] tests it: a null matches a null. *)
Definition cell_isin (a : value) (vs : list value) : bool :=
  existsb (value_eqb a) vs.

(** A row: column label to cell. *)
Definition Row : Type := list (string * value).

Fixpoint row_get (r : Row) (k : string) : option value :=
  match r with
  | [] => None
  | (k', v) :: t => if String.eqb k k' then Some v else row_get t k
  end.

(** The cell of a row under a column of its frame; a missing cell reads
    as null. *)
Definition cell (r : Row) (k : string) : value :=
  match row_get r k with
  | Some v => v
  | None => VNaN
  end.

(** [row[k]] on a row handed out by [DataFrame.apply(axis=1)]. *)
Definition row_getitem (r : Row) (k : string) : result value :=
  match row_get r k with
  | Some v => Ok v
  | None => Raise (KeyError k)
  end.

Fixpoint set_cell (r : Row) (k : string) (v : value) : Row :=
  match r with
  | [] => [(k, v)]
  | (k', v') :: t =>
      if String.eqb k k' then (k', v) :: t else (k', v') :: set_cell t k v
  end.

Definition del_cells (ks : list string) (r : Row) : Row :=
  filter (fun kv => negb (existsb (String.eqb (fst kv)) ks)) r.

Record DataFrame : Type := mkFrame {
  columns : list string;
  rows : list Row
}.

(** [k in df.columns] *)
Definition in_columns (k : string) (df : DataFrame) : bool :=
  existsb (String.eqb k) (columns df).

(** [len(df)] *)
Definition len (df : DataFrame) : Z := Z.of_nat (List.length (rows df)).

(** [df[k]]: the column as a series, or [KeyError]. *)
Definition getitem (df : DataFrame) (k : string) : result (list value) :=
  if in_columns k df then Ok (map (fun r => cell r k) (rows df))
  else Raise (KeyError k).

(** [series == v] and [series.isin(vs)]: boolean masks. *)
Definition series_eq (s : list value) (v : value) : list bool :=
  map (fun c => cell_eq c v) s.

Definition series_isin (s : list value) (vs : list value) : list bool :=
  map (fun c => cell_isin c vs) s.

(** [df[mask]]: a new frame with the rows whose mask entry is true. *)
Fixpoint select_rows (rs : list Row) (mask : list bool) : list Row :=
  match rs, mask with
  | r :: rs', b :: mask' =>
      if b then r :: select_rows rs' mask' else select_rows rs' mask'
  | _, _ => []
  end.

Definition select (df : DataFrame) (mask : list bool) : DataFrame :=
  mkFrame (columns df) (select_rows (rows df) mask).

(** [df.copy()]: a new object with the same contents. *)
Definition copy (df : DataFrame) : DataFrame := df.

(** [df[k] = series]: the column is overwritten, or appended when new. *)
Fixpoint assign_cells (rs : list Row) (k : string) (vs : list value) : list Row :=
  match rs with
  | [] => []
  | r :: rs' =>
      match vs with
      | v :: vs' => set_cell r k v :: assign_cells rs' k vs'
      | [] => set_cell r k VNaN :: assign_cells rs' k []
      end
  end.

Definition setitem (df : DataFrame) (k : string) (vs : list value) : DataFrame :=
  mkFrame (if in_columns k df then columns df else columns df ++ [k])
          (assign_cells (rows df) k vs).

(** [df.drop(columns=ks)] for labels that are columns of [df]. *)
Definition drop (df : DataFrame) (ks : list string) : DataFrame :=
  mkFrame (filter (fun c => negb (existsb (String.eqb c) ks)) (columns df))
          (map (del_cells ks) (rows df)).

(** [df[ks]] for a list of labels: [KeyError] at the first absent one. *)
Definition project (df : DataFrame) (ks : list string) : result DataFrame :=
  _ <- mapM (fun k => if in_columns k df then Ok tt else Raise (KeyError k)) ks ;;
  Ok (mkFrame ks (map (fun r => map (fun k => (k, cell r k)) ks) (rows df))).

(** [pd.DataFrame({k1: s1, k2: s2})] for two series of one length. *)
Definition frame_of_columns2 (k1 : string) (s1 : list value)
                             (k2 : string) (s2 : list value) : DataFrame :=
  mkFrame [k1; k2] (map (fun p => [(k1, fst p); (k2, snd p)]) (combine s1 s2)).

(** [series.unique()]: the distinct values in order of first appearance
    (a hash table of the values seen so far; nulls count as one value). *)
Fixpoint unique_from (seen : list value) (s : list value) : list value :=
  match s with
  | [] => []
  | v :: t =>
      if existsb (value_eqb v) seen then unique_from seen t
      else v :: unique_from (v :: seen) t
  end.

Definition unique (s : list value) : list value := unique_from [] s.

(** [series.nunique()]: the number of distinct non-null values. *)
Definition nunique (s : list value) : Z :=
  Z.of_nat (List.length (unique (filter (fun v => negb (isna v)) s))).

(** Ordering comparisons of a cell with a number: a null compares false,
    a string or a timestamp is a [TypeError]. *)
Definition cell_le_int (v : value) (k : Z) : result bool :=
  match v with
  | VInt z => Ok (z <=? k)
  | VNaN => Ok false
  | VStr _ => Raise (TypeError "'<=' not supported between instances of 'str' and 'int'")
  | VDate _ => Raise (TypeError "'<=' not supported between instances of 'Timestamp' and 'int'")
  end.

Definition cell_gt_int (v : value) (k : Z) : result bool :=
  match v with
  | VInt z => Ok (k <? z)
  | VNaN => Ok false
  | VStr _ => Raise (TypeError "'>' not supported between instances of 'str' and 'int'")
  | VDate _ => Raise (TypeError "'>' not supported between instances of 'Timestamp' and 'int'")
  end.

(** [series >= t] for a timestamp [t]: a null (NaT) compares false. *)
Definition cell_ge_date (v : value) (t : Z) : result bool :=
  match v with
  | VDate d => Ok (t <=? d)
  | VNaN => Ok false
  | _ => Raise (TypeError "Invalid comparison between dtype and datetime")
  end.

Definition series_ge_date (s : list value) (t : Z) : result (list bool) :=
  mapM (fun c => cell_ge_date c t) s.

(** [series.median()]: nulls are skipped; the middle value of the sorted
    rest, or the mean of the two middle values; NaN when nothing is left.
    The median of integers is an integer or a half: it is kept as the
    integer [twice], standing for the number [twice / 2]. *)
Inductive median_value : Type :=
| MedianNaN
| MedianHalf (twice : Z).

Fixpoint insert_sorted (x : Z) (l : list Z) : list Z :=
  match l with
  | [] => [x]
  | y :: t => if x <=? y then x :: y :: t else y :: insert_sorted x t
  end.

Definition sort_values (l : list Z) : list Z := fold_right insert_sorted [] l.

Fixpoint dropna_numeric (s : list value) : result (list Z) :=
  match s with
  | [] => Ok []
  | VInt z :: t => zs <- dropna_numeric t ;; Ok (z :: zs)
  | VNaN :: t => dropna_numeric t
  | _ :: t => Raise (TypeError "could not convert to numeric")
  end.

Definition median (s : list value) : result median_value :=
  xs <- dropna_numeric s ;;
  let sorted := sort_values xs in
  let n := List.length sorted in
  Ok (if (n =? 0)%nat then MedianNaN
      else if Nat.odd n then MedianHalf (2 * nth (n / 2) sorted 0)
      else MedianHalf (nth (n / 2 - 1) sorted 0 + nth (n / 2) sorted 0)).

(** [cell < median] *)
Definition cell_lt_median (v : value) (m : median_value) : result bool :=
  match v with
  | VInt z => Ok (match m with MedianNaN => false | MedianHalf t => 2 * z <? t end)
  | VNaN => Ok false
  | VStr _ => Raise (TypeError "'<' not supported between instances of 'str' and 'float'")
  | VDate _ => Raise (TypeError "'<' not supported between instances of 'Timestamp' and 'float'")
  end.

(** [bins.searchsorted(x, side='left')] on ascending bins: the position of
    the first bin that is not below [x]. *)
Fixpoint searchsorted_left (bins : list Z) (x : Z) : nat :=
  match bins with
  | [] => 0%nat
  | b :: t => if b <? x then S (searchsorted_left t x) else 0%nat
  end.

(** [pd.cut(series, bins=bins, labels=labels)] with the default
    [right=True], one cell at a time: the position among the bins picks
    the label; a value at or below the first bin, above the last one, or
    null, has no category. *)
Definition cut_cell (bins : list Z) (labels : list string) (v : value) : result value :=
  match v with
  | VInt x =>
      let ids := searchsorted_left bins x in
      if (ids =? 0)%nat || (ids =? List.length bins)%nat then Ok VNaN
      else Ok (match nth_error labels (ids - 1) with
               | Some l => VStr l
               | None => VNaN
               end)
  | VNaN => Ok VNaN
  | VStr _ => Raise (TypeError "'<' not supported between instances of 'int' and 'str'")
  | VDate _ => Raise (TypeError "cannot cut a datetime series with integer bins")
  end.

Definition cut (s : list value) (bins : list Z) (labels : list string) : result (list value) :=
  mapM (cut_cell bins labels) s.

(** [left.merge(right, left_on=lk, right_on=rk, how='left')]: every left
    row, once per right row with the same key, or once with nulls in the
    right columns when there is none.  (Labels common to both frames are
    not renamed here; the pipeline joins frames with disjoint labels.) *)
Definition join_row (l : Row) (right_cols : list string) (r : Row) : Row :=
  l ++ map (fun k => (k, cell r k)) right_cols.

Definition merge_left (left right : DataFrame) (lk rk : string) : result DataFrame :=
  _ <- getitem left lk ;;
  _ <- getitem right rk ;;
  Ok (mkFrame (columns left ++ columns right)
        (flat_map
           (fun l =>
              match filter (fun r => value_eqb (cell l lk) (cell r rk)) (rows right) with
              | [] => [join_row l (columns right) []]
              | ms => map (join_row l (columns right)) ms
              end)
           (rows left))).

End Pandas.

Export Pandas.

(* ================================================================== *)
(** ** data_preparation.py: class HRDataModel *)

Module DataPreparation.

(** The attributes of an [HRDataModel] object; [None] until a stage sets
    them. *)
Record HRDataModel : Type := mkModel {
  data_path : string;
  df_employee : option DataFrame;
  df_department : option DataFrame;
  df_demographics : option DataFrame;
  f_headcount : option DataFrame;
  f_separations : option DataFrame;
  df_merged : option DataFrame
}.

Definition __init__ (path : string) : HRDataModel :=
  mkModel path None None None None None None.

Definition set_df_employee (self : HRDataModel) (d : DataFrame) : HRDataModel :=
  mkModel (data_path self) (Some d) (df_department self) (df_demographics self)
          (f_headcount self) (f_separations self) (df_merged self).

Definition set_df_department (self : HRDataModel) (d : DataFrame) : HRDataModel :=
  mkModel (data_path self) (df_employee self) (Some d) (df_demographics self)
          (f_headcount self) (f_separations self) (df_merged self).

Definition set_df_demographics (self : HRDataModel) (d : DataFrame) : HRDataModel :=
  mkModel (data_path self) (df_employee self) (df_department self) (Some d)
          (f_headcount self) (f_separations self) (df_merged self).

Definition set_f_headcount (self : HRDataModel) (d : DataFrame) : HRDataModel :=
  mkModel (data_path self) (df_employee self) (df_department self) (df_demographics self)
          (Some d) (f_separations self) (df_merged self).

Definition set_f_separations (self : HRDataModel) (d : DataFrame) : HRDataModel :=
  mkModel (data_path self) (df_employee self) (df_department self) (df_demographics self)
          (f_headcount self) (Some d) (df_merged self).

Definition set_df_merged (self : HRDataModel) (d : DataFrame) : HRDataModel :=
  mkModel (data_path self) (df_employee self) (df_department self) (df_demographics self)
          (f_headcount self) (f_separations self) (Some d).

(** Reading an attribute of, or subscripting, a table that may still be
    [None]. *)
Definition attribute_of (o : option DataFrame) (name : string) : result DataFrame :=
  match o with
  | Some d => Ok d
  | None => Raise (AttributeError ("'NoneType' object has no attribute " ++ name)%string)
  end.

Definition subscript_of (o : option DataFrame) : result DataFrame :=
  match o with
  | Some d => Ok d
  | None => Raise (TypeError "'NoneType' object is not subscriptable")
  end.

(** The dictionary [prepare_complete_model] returns. *)
Record DataModel : Type := mkDataModel {
  employee : DataFrame;
  department : DataFrame;
  demographics : DataFrame;
  headcount : DataFrame;
  separations : DataFrame;
  merged : DataFrame
}.

(** What a path names when the file is opened. *)
Inductive file : Type :=
| Absent
| Unreadable
| Malformed
| Table (contents : DataFrame).

(** [pd.read_csv(path)]: the parsed table, or the exception of the failed
    open or parse. *)
Definition read_csv (fs : string -> file) (path : string) : result DataFrame :=
  match fs path with
  | Absent => Raise (FileNotFoundError path)
  | Unreadable => Raise (PermissionError path)
  | Malformed => Raise (ParserError path)
  | Table d => Ok d
  end.

Definition age_bins : list Z := [0; 25; 35; 45; 55; 100].
Definition age_labels : list string := ["18-25"; "26-35"; "36-45"; "46-55"; "55+"].

(** [pd.to_datetime('2024-01-01')] and [pd.to_timedelta(n, unit='D')], in
    microseconds. *)
Definition reference_date : Z := 1704067200000000.
Definition timedelta_days (n : Z) : Z := n * 86400000000.

Section Methods.

(** The environment of a run: the files, and the library functions whose
    results are not determined by the modules themselves. *)
Variable fs : string -> file.
(** The number a text denotes for [pd.to_numeric], if any. *)
Variable parse_numeric : string -> option Z.
(** [hash(str(x))]: Python's per-process salted string hash. *)
Variable hash_str : value -> Z.
(** The simulated snapshot: twelve months of the base count perturbed by
    [np.random.randint], from the clock and the global random state. *)
Variable simulate_headcount : Z -> DataFrame.

Definition load_data (self : HRDataModel) : result (DataFrame * HRDataModel) :=
  d <- read_csv fs (data_path self) ;;
  Ok (d, set_df_employee self d).

Definition anonymize_pii (self : HRDataModel) : result (DataFrame * HRDataModel) :=
  df <- attribute_of (df_employee self) "columns" ;;
  if in_columns "EmployeeNumber" df then
    numbers <- getitem df "EmployeeNumber" ;;
    let df := setitem df "EmployeeID" (map (fun x => VInt (hash_str x mod 100000)) numbers) in
    Ok (df, set_df_employee self df)
  else Ok (df, self).

Definition create_department_table (self : HRDataModel) : result (DataFrame * HRDataModel) :=
  df <- subscript_of (df_employee self) ;;
  col <- getitem df "Department" ;;
  let departments := unique col in
  let t := frame_of_columns2
             "DepartmentID"
             (map (fun i => VInt (Z.of_nat i)) (seq 1 (List.length departments)))
             "DepartmentName" departments in
  Ok (t, set_df_department self t).

Definition create_demographics_table (self : HRDataModel) : result (DataFrame * HRDataModel) :=
  let demo_cols := ["Gender"; "MaritalStatus"; "EducationField"; "Age"] in
  df <- attribute_of (df_employee self) "columns" ;;
  let available_cols :=
    "EmployeeNumber" :: filter (fun col => in_columns col df) demo_cols in
  demo <- project df available_cols ;;
  let demo := copy demo in
  demo <- (if in_columns "Age" demo then
             ages <- getitem demo "Age" ;;
             groups <- cut ages age_bins age_labels ;;
             Ok (setitem demo "AgeGroup" groups)
           else Ok demo) ;;
  Ok (demo, set_df_demographics self demo).

Definition create_headcount_snapshot (self : HRDataModel) : result (DataFrame * HRDataModel) :=
  match df_employee self with
  | None => Raise (TypeError "object of type 'NoneType' has no len()")
  | Some df =>
      let t := simulate_headcount (len df) in
      Ok (t, set_f_headcount self t)
  end.

Definition _infer_separation_reason (self : HRDataModel) (row : Row) : result string :=
  let reasons : list string := [] in
  v <- row_getitem row "JobSatisfaction" ;;
  c <- cell_le_int v 2 ;;
  let reasons := if c then reasons ++ ["Low Job Satisfaction"] else reasons in
  v <- row_getitem row "EnvironmentSatisfaction" ;;
  c <- cell_le_int v 2 ;;
  let reasons := if c then reasons ++ ["Poor Work Environment"] else reasons in
  v <- row_getitem row "WorkLifeBalance" ;;
  c <- cell_le_int v 2 ;;
  let reasons := if c then reasons ++ ["Work-Life Balance"] else reasons in
  v <- row_getitem row "MonthlyIncome" ;;
  df <- subscript_of (df_employee self) ;;
  incomes <- getitem df "MonthlyIncome" ;;
  m <- median incomes ;;
  c <- cell_lt_median v m ;;
  let reasons := if c then reasons ++ ["Compensation"] else reasons in
  v <- row_getitem row "OverTime" ;;
  let reasons := if cell_eq v (VStr "Yes") then reasons ++ ["Overtime Concerns"] else reasons in
  v <- row_getitem row "YearsSinceLastPromotion" ;;
  c <- cell_gt_int v 5 ;;
  let reasons := if c then reasons ++ ["Limited Growth"] else reasons in
  Ok (match reasons with
      | r :: _ => r
      | [] => "Other"
      end).

(** [reference_date - to_timedelta(years * 365, unit='D')], one cell. *)
Definition separation_date (years : value) : result value :=
  match years with
  | VInt y => Ok (VDate (reference_date - timedelta_days (y * 365)))
  | VNaN => Ok VNaN
  | VStr _ => Raise (ValueError "unit must not be specified if the input contains a str")
  | VDate _ => Raise (TypeError "unsupported operand type(s) for *: 'Timestamp' and 'int'")
  end.

(** [separations.apply(self._infer_separation_reason, axis=1)] runs the
    inference on each departed row in turn.  (With no departed row at all
    [apply] hands back a frame instead of a series; nothing below rests on
    that case.) *)
Definition create_separations_table (self : HRDataModel) : result (DataFrame * HRDataModel) :=
  df <- subscript_of (df_employee self) ;;
  attrition <- getitem df "Attrition" ;;
  let separations := copy (select df (series_eq attrition (VStr "Yes"))) in
  years <- getitem separations "YearsAtCompany" ;;
  dates <- mapM separation_date years ;;
  let separations := setitem separations "SeparationDate" dates in
  reasons <- mapM (_infer_separation_reason self) (rows separations) ;;
  let separations := setitem separations "SeparationReason" (map VStr reasons) in
  t <- project separations
         ["EmployeeNumber"; "Department"; "JobRole"; "SeparationDate";
          "SeparationReason"; "MonthlyIncome"; "YearsAtCompany"] ;;
  let t := copy t in
  Ok (t, set_f_separations self t).

Definition merge_tables (self : HRDataModel) : result (DataFrame * HRDataModel) :=
  df <- attribute_of (df_employee self) "copy" ;;
  let m := copy df in
  m <- match df_department self with
       | Some dept => merge_left m dept "Department" "DepartmentName"
       | None => Ok m
       end ;;
  Ok (m, set_df_merged self m).

(** [pd.to_numeric(series, errors='coerce')], one cell: a number stays,
    a text becomes the number it denotes or the null marker, a timestamp
    becomes its count of nanoseconds. *)
Definition to_numeric_cell (v : value) : value :=
  match v with
  | VInt z => VInt z
  | VStr s => match parse_numeric s with
              | Some z => VInt z
              | None => VNaN
              end
  | VDate t => VInt (t * 1000)
  | VNaN => VNaN
  end.

Definition to_numeric (s : list value) : list value := map to_numeric_cell s.

Definition numeric_cols : list string :=
  ["Age"; "MonthlyIncome"; "YearsAtCompany"; "TotalWorkingYears"].

Definition coerce_column (df : DataFrame) (col : string) : result DataFrame :=
  if in_columns col df then
    s <- getitem df col ;;
    Ok (setitem df col (to_numeric s))
  else Ok df.

Definition clean_data (self : HRDataModel) : result (DataFrame * HRDataModel) :=
  df <- attribute_of (df_employee self) "columns" ;;
  constant_cols <- filterM (fun col => s <- getitem df col ;; Ok (nunique s <=? 1))
                           (columns df) ;;
  let df := match constant_cols with
            | [] => df
            | _ => drop df constant_cols
            end in
  df <- foldM coerce_column numeric_cols df ;;
  Ok (df, set_df_employee self df).

Definition prepare_complete_model (self : HRDataModel) : result (DataModel * HRDataModel) :=
  '(_, self) <- load_data self ;;
  '(_, self) <- clean_data self ;;
  '(employee, self) <- anonymize_pii self ;;
  '(department, self) <- create_department_table self ;;
  '(demographics, self) <- create_demographics_table self ;;
  '(headcount, self) <- create_headcount_snapshot self ;;
  '(separations, self) <- create_separations_table self ;;
  '(merged, self) <- merge_tables self ;;
  Ok (mkDataModel employee department demographics headcount separations merged, self).

End Methods.

End DataPreparation.

Export DataPreparation.

(* ================================================================== *)
(** ** dax_measures.py: class DAXMeasures *)

Module DaxMeasures.

(** The tables of the data model are objects shared between the
    dictionary and the measures object ([self.df] is [data_model['merged']]
    itself).  A frame variable of a method either names one of these
    shared tables or holds a frame of its own. *)
Inductive table : Type :=
| Employee | Department | Demographics | Headcount | Separations | Merged.

Inductive frame_ref : Type :=
| Shared (t : table)
| Local (d : DataFrame).

Definition table_of (dm : DataModel) (t : table) : DataFrame :=
  match t with
  | Employee => employee dm
  | Department => department dm
  | Demographics => demographics dm
  | Headcount => headcount dm
  | Separations => separations dm
  | Merged => merged dm
  end.

Definition store (dm : DataModel) (t : table) (d : DataFrame) : DataModel :=
  match t with
  | Employee => mkDataModel d (department dm) (demographics dm) (headcount dm) (separations dm) (merged dm)
  | Department => mkDataModel (employee dm) d (demographics dm) (headcount dm) (separations dm) (merged dm)
  | Demographics => mkDataModel (employee dm) (department dm) d (headcount dm) (separations dm) (merged dm)
  | Headcount => mkDataModel (employee dm) (department dm) (demographics dm) d (separations dm) (merged dm)
  | Separations => mkDataModel (employee dm) (department dm) (demographics dm) (headcount dm) d (merged dm)
  | Merged => mkDataModel (employee dm) (department dm) (demographics dm) (headcount dm) (separations dm) d
  end.

Definition deref (dm : DataModel) (r : frame_ref) : DataFrame :=
  match r with
  | Shared t => table_of dm t
  | Local d => d
  end.

(** [r[k] = series]: the object [r] refers to is written in place. *)
Definition assign_column (dm : DataModel) (r : frame_ref) (k : string) (vs : list value)
  : DataModel * frame_ref :=
  match r with
  | Shared t => (store dm t (setitem (table_of dm t) k vs), Shared t)
  | Local d => (dm, Local (setitem d k vs))
  end.

(** A filter mapping: column label to [None], a single value, or a list. *)
Inductive filter_value : Type :=
| FNone
| FValue (v : value)
| FList (vs : list value).

Definition Filters : Type := list (string * filter_value).

Definition is_None (v : filter_value) : bool :=
  match v with FNone => true | _ => false end.

(** [if filters:] on an optional dictionary. *)
Definition truthy (filters : option Filters) : bool :=
  match filters with
  | Some (_ :: _) => true
  | _ => false
  end.

(** The loop of [_apply_filters] over [filters.items()]. *)
Fixpoint apply_items (df_filtered : DataFrame) (items : Filters) : result DataFrame :=
  match items with
  | [] => Ok df_filtered
  | (key, value) :: rest =>
      if in_columns key df_filtered && negb (is_None value) then
        match value with
        | FList vs =>
            col <- getitem df_filtered key ;;
            apply_items (select df_filtered (series_isin col vs)) rest
        | FValue v =>
            col <- getitem df_filtered key ;;
            apply_items (select df_filtered (series_eq col v)) rest
        | FNone => apply_items df_filtered rest
        end
      else apply_items df_filtered rest
  end.

Definition _apply_filters (dm : DataModel) (df : frame_ref) (filters : option Filters)
  : result frame_ref :=
  match filters with
  | None => Ok df
  | Some items =>
      df_filtered <- apply_items (copy (deref dm df)) items ;;
      Ok (Local df_filtered)
  end.

Definition calculate_headcount (dm : DataModel) (filters : option Filters) : result Z :=
  df_filtered <- _apply_filters dm (Shared Merged) filters ;;
  let df_filtered := deref dm df_filtered in
  attrition <- getitem df_filtered "Attrition" ;;
  Ok (len (select df_filtered (series_eq attrition (VStr "No")))).

(** [now] is [datetime.now()], in microseconds. *)
Definition calculate_separations (dm : DataModel) (now : Z)
    (filters : option Filters) (period_months : Z) : result Z :=
  separations_filtered <-
    (if truthy filters then _apply_filters dm (Shared Separations) filters
     else Ok (Shared Separations)) ;;
  separations_filtered <-
    (if period_months <? 12 then
       let cutoff_date := now - timedelta_days (period_months * 30) in
       let d := deref dm separations_filtered in
       dates <- getitem d "SeparationDate" ;;
       mask <- series_ge_date dates cutoff_date ;;
       Ok (Local (select d mask))
     else Ok separations_filtered) ;;
  Ok (len (deref dm separations_filtered)).

Definition calculate_attrition_rate (dm : DataModel) (now : Z)
    (filters : option Filters) (period_months : Z) : result pyfloat :=
  separations <- calculate_separations dm now filters period_months ;;
  headcount <- calculate_headcount dm filters ;;
  if headcount =? 0 then Ok zero
  else
    quotient <- int_truediv separations headcount ;;
    let rate := fmul quotient hundred in
    Ok (py_round2 rate).

(** A row of the key-influencer result. *)
Record Influencer : Type := mkInfluencer {
  Factor : string;
  Impact : pyfloat;
  Direction : string
}.

Definition numeric_cols : list string :=
  ["Age"; "MonthlyIncome"; "YearsAtCompany"; "TotalWorkingYears";
   "JobSatisfaction"; "EnvironmentSatisfaction"; "WorkLifeBalance";
   "YearsSinceLastPromotion"; "DistanceFromHome"; "PercentSalaryHike"].

(** [sorted(items, key=lambda x: x[1], reverse=True)]: a stable sort by
    descending key; items with equal keys keep their order. *)
Fixpoint insert_desc (x : string * pyfloat) (l : list (string * pyfloat))
  : list (string * pyfloat) :=
  match l with
  | [] => [x]
  | y :: t => if fltb (snd x) (snd y) then y :: insert_desc x t else x :: y :: t
  end.

Definition sorted_desc (l : list (string * pyfloat)) : list (string * pyfloat) :=
  fold_right insert_desc [] l.

Section KeyInfluencers.

(** [a.corr(b)]: pandas' Pearson correlation of two series, NaN where it
    is undefined. *)
Variable corr : list value -> list value -> pyfloat.
(** [round(x, 2)] on a NumPy scalar. *)
Variable np_round2 : pyfloat -> pyfloat.

(** The first loop: the dictionary [correlations], in insertion order. *)
Fixpoint correlations_of (df_filtered : DataFrame) (cols : list string)
  : result (list (string * pyfloat)) :=
  match cols with
  | [] => Ok []
  | col :: rest =>
      if in_columns col df_filtered then
        x <- getitem df_filtered col ;;
        y <- getitem df_filtered "AttritionBinary" ;;
        let c := corr x y in
        later <- correlations_of df_filtered rest ;;
        Ok (if negb (isnan c) then (col, fabs c) :: later else later)
      else correlations_of df_filtered rest
  end.

(** The body of the second loop. *)
Definition influencer_of (df_filtered : DataFrame) (item : string * pyfloat)
  : result Influencer :=
  let '(col, corr_value) := item in
  x <- getitem df_filtered col ;;
  y <- getitem df_filtered "AttritionBinary" ;;
  let actual_corr := corr x y in
  let direction := if fltb zero actual_corr then "Increases" else "Decreases" in
  Ok (mkInfluencer col (np_round2 (fmul corr_value hundred)) direction).

(** The method returns its result and leaves the data model as its
    assignment to [df_filtered] has made it. *)
Definition identify_key_influencers (dm : DataModel)
    (filters : option Filters) (top_n : Z) : DataModel * result (list Influencer) :=
  match _apply_filters dm (Shared Merged) filters with
  | Raise e => (dm, Raise e)
  | Ok df_filtered =>
      match getitem (deref dm df_filtered) "Attrition" with
      | Raise e => (dm, Raise e)
      | Ok attrition =>
          let binary := map (fun c => VInt (if cell_eq c (VStr "Yes") then 1 else 0)) attrition in
          let '(dm, df_filtered) := assign_column dm df_filtered "AttritionBinary" binary in
          let df_filtered := deref dm df_filtered in
          (dm,
           correlations <- correlations_of df_filtered numeric_cols ;;
           let sorted_corrs := sorted_desc correlations in
           mapM (influencer_of df_filtered) (slice_to top_n sorted_corrs))
      end
  end.

End KeyInfluencers.

End DaxMeasures.

Export DaxMeasures.

(* ================================================================== *)
(** ** Specification-side definitions *)

Module Spec.

(** The column of a frame read row by row, whether or not the label is in
    the header. *)
Definition series (df : DataFrame) (k : string) : list value :=
  map (fun r => cell r k) (rows df).

(** *** Filters *)

(** An entry of a filter mapping constrains a table when its key is one
    of the table's columns and its value is not [None]. *)
Definition constrains (cols : list string) (entry : string * filter_value) : bool :=
  existsb (String.eqb (fst entry)) cols && negb (is_None (snd entry)).

(** A row satisfies an entry: equality with the value, or membership in
    the list. *)
Definition satisfies (r : Row) (entry : string * filter_value) : bool :=
  match snd entry with
  | FNone => true
  | FValue v => cell_eq (cell r (fst entry)) v
  | FList vs => cell_isin (cell r (fst entry)) vs
  end.

(** A row matches a filter mapping over a table with header [cols]. *)
Definition row_matches (cols : list string) (items : Filters) (r : Row) : bool :=
  forallb (fun entry => negb (constrains cols entry) || satisfies r entry) items.

(** The test a row passes to be in the view, for a filter mapping or none. *)
Definition view_test (cols : list string) (filters : option Filters) (r : Row) : bool :=
  match filters with
  | None => true
  | Some items => row_matches cols items r
  end.

(** A currently active (non-departed) row. *)
Definition is_active (r : Row) : bool := cell_eq (cell r "Attrition") (VStr "No").

(** The filtered merged view a measure works on. *)
Definition filtered_view (dm : DataModel) (filters : option Filters) : result DataFrame :=
  r <- _apply_filters dm (Shared Merged) filters ;;
  Ok (deref dm r).

(** *** Attrition rate *)

(** [round(100 * separations / headcount, 2)] as the formula is written:
    the integers multiplied first, one division, one rounding. *)
Definition rate_as_written (separations headcount : Z) : result pyfloat :=
  if headcount =? 0 then Ok zero
  else
    quotient <- int_truediv (100 * separations) headcount ;;
    Ok (py_round2 quotient).

(** *** Separation reasons *)

(** A numeric cell of a row: a number or null. *)
Inductive num : Type :=
| Num (z : Z)
| Null.

Definition num_value (n : num) : value :=
  match n with
  | Num z => VInt z
  | Null => VNaN
  end.

Definition at_most (n : num) (k : Z) : bool :=
  match n with Num z => z <=? k | Null => false end.

Definition above (n : num) (k : Z) : bool :=
  match n with Num z => k <? z | Null => false end.

Definition below_median (n : num) (m : median_value) : bool :=
  match n, m with
  | Num z, MedianHalf t => 2 * z <? t
  | _, _ => false
  end.

Definition overtime_set (v : value) : bool :=
  match v with
  | VStr s => String.eqb s "Yes"
  | _ => false
  end.

(** The label of the first predicate that holds, in the fixed priority
    order. *)
Definition first_matching_reason (job env wlb income : num) (m : median_value)
    (overtime : value) (since_promotion : num) : string :=
  if at_most job 2 then "Low Job Satisfaction"
  else if at_most env 2 then "Poor Work Environment"
  else if at_most wlb 2 then "Work-Life Balance"
  else if below_median income m then "Compensation"
  else if overtime_set overtime then "Overtime Concerns"
  else if above since_promotion 5 then "Limited Growth"
  else "Other".

Definition reason_labels : list string :=
  ["Low Job Satisfaction"; "Poor Work Environment"; "Work-Life Balance";
   "Compensation"; "Overtime Concerns"; "Limited Growth"; "Other"].

(** *** Department dimension *)

(** The position at which a value is first met in a series. *)
Fixpoint first_index (v : value) (s : list value) : nat :=
  match s with
  | [] => 0%nat
  | x :: t => if value_eqb v x then 0%nat else S (first_index v t)
  end.

(** *** Age bands *)

(** Range membership, exclusive low and inclusive high, over consecutive
    boundaries. *)
Fixpoint band_of (bins : list Z) (labels : list string) (x : Z) : option string :=
  match bins, labels with
  | lo :: ((hi :: _) as bins'), l :: labels' =>
      if (lo <? x) && (x <=? hi) then Some l else band_of bins' labels' x
  | _, _ => None
  end.

Definition band_cell (o : option string) : value :=
  match o with
  | Some l => VStr l
  | None => VNaN
  end.

(** The age band of an age cell that is a number or null. *)
Definition age_band (n : num) : value :=
  match n with
  | Num a => band_cell (band_of age_bins age_labels a)
  | Null => VNaN
  end.

(** *** Cleaning *)

(** The same value in every row. *)
Definition constant (s : list value) : bool :=
  match s with
  | [] => true
  | v :: t => forallb (value_eqb v) t
  end.

(** At most one distinct value among the cells that are not null. *)
Definition single_valued (s : list value) : Prop :=
  forall a b, In a s -> In b s -> a <> VNaN -> b <> VNaN -> a = b.

(** A cell of numeric type: a number or the null marker. *)
Definition numeric_or_null (v : value) : bool :=
  match v with
  | VInt _ | VNaN => true
  | _ => false
  end.

(** *** Key influencers *)

(** The frame the correlations are computed on: the filtered view with
    the binary attrition indicator. *)
Definition with_indicator (df : DataFrame) : DataFrame :=
  setitem df "AttritionBinary"
    (map (fun c => VInt (if cell_eq c (VStr "Yes") then 1 else 0)) (series df "Attrition")).



Section Correlation.

Variable corr : list value -> list value -> pyfloat.
Variable np_round2 : pyfloat -> pyfloat.

(** The correlation of an attribute with the indicator. *)
Definition attrition_corr (df : DataFrame) (col : string) : pyfloat :=
  corr (series df col) (series df "AttritionBinary").


(** The dictionary of the first loop: the attributes that are columns and
    whose correlation is defined, each with the magnitude. *)
Definition defined_correlations (d : DataFrame) (cols : list string)
  : list (string * pyfloat) :=
  map (fun col => (col, fabs (attrition_corr d col)))
      (filter (fun col => in_columns col d && negb (isnan (attrition_corr d col))) cols).

(** The row built for an item of the dictionary. *)
Definition influencer_row (d : DataFrame) (item : string * pyfloat) : Influencer :=
  mkInfluencer (fst item) (np_round2 (fmul (snd item) hundred))
    (if fltb zero (attrition_corr d (fst item)) then "Increases" else "Decreases").

(** What holds of every item of the dictionary. *)
Definition ranked_item (d : DataFrame) (item : string * pyfloat) : Prop :=
  In (fst item) DaxMeasures.numeric_cols /\
  in_columns (fst item) d = true /\
  isnan (attrition_corr d (fst item)) = false /\
  snd item = fabs (attrition_corr d (fst item)).

(** The rows the method returns for a view. *)
Definition ranking (view : DataFrame) (top_n : Z) : list Influencer :=
  map (influencer_row (with_indicator view))
      (slice_to top_n
         (sorted_desc (defined_correlations (with_indicator view) DaxMeasures.numeric_cols))).

End Correlation.

End Spec.

Export Spec.

(* ================================================================== *)
(** ** Sample tables and instances of the environment *)

Module Samples.

Definition row_of (header : list string) (cells : list value) : Row :=
  combine header cells.

Definition frame_of (header : list string) (table : list (list value)) : DataFrame :=
  mkFrame header (map (row_of header) table).

(** A raw table of five employees as [read_csv] hands it over: numbers
    where every cell of the column parses as one, text elsewhere, and a
    column that never varies. *)
Definition raw_header : list string :=
  ["EmployeeNumber"; "Age"; "Attrition"; "Department"; "JobRole"; "Gender";
   "MonthlyIncome"; "YearsAtCompany"; "TotalWorkingYears"; "JobSatisfaction";
   "EnvironmentSatisfaction"; "WorkLifeBalance"; "OverTime";
   "YearsSinceLastPromotion"; "Over18"].

Definition raw_table : DataFrame :=
  frame_of raw_header
    [ [VInt 1; VInt 25; VStr "Yes"; VStr "Sales"; VStr "Sales Executive"; VStr "Female";
       VInt 3000; VInt 1; VStr "3"; VInt 1; VInt 3; VInt 3; VStr "Yes"; VInt 0; VStr "Y"];
      [VInt 2; VInt 26; VStr "No"; VStr "Research"; VStr "Research Scientist"; VStr "Male";
       VInt 5000; VInt 5; VStr "8"; VInt 3; VInt 3; VInt 3; VStr "No"; VInt 1; VStr "Y"];
      [VInt 3; VInt 55; VStr "No"; VStr "Sales"; VStr "Manager"; VStr "Male";
       VInt 9000; VInt 20; VStr "30"; VInt 4; VInt 4; VInt 3; VStr "No"; VInt 7; VStr "Y"];
      [VInt 4; VInt 56; VStr "Yes"; VStr "Human Resources"; VStr "Human Resources"; VStr "Female";
       VInt 8000; VInt 2; VStr "n/a"; VInt 3; VInt 3; VInt 3; VStr "Yes"; VInt 6; VStr "Y"];
      [VInt 5; VInt 40; VStr "No"; VStr "Research"; VStr "Laboratory Technician"; VStr "Male";
       VInt 4000; VInt 10; VStr "15"; VInt 3; VInt 2; VInt 2; VStr "No"; VInt 2; VStr "Y"] ].

(** Files: one readable table, one unreadable file, nothing else. *)
Definition sample_fs (path : string) : file :=
  if String.eqb path "hr.csv" then Table raw_table
  else if String.eqb path "locked.csv" then Unreadable
  else Absent.

(** Decimal digits as a number. *)
Fixpoint digits_value (acc : Z) (s : string) : option Z :=
  match s with
  | EmptyString => Some acc
  | String c t =>
      let n := Z.of_nat (nat_of_ascii c) in
      if (48 <=? n) && (n <=? 57) then digits_value (10 * acc + (n - 48)) t else None
  end.

Definition parse_decimal (s : string) : option Z :=
  match s with
  | EmptyString => None
  | _ => digits_value 0 s
  end.

(** A fixed stand-in for the salted hash. *)
Definition sample_hash (v : value) : Z :=
  match v with
  | VInt z => 7919 * z + 104729
  | _ => 0
  end.

(** One draw of the simulated snapshot, two of its months. *)
Definition sample_snapshot (base_count : Z) : DataFrame :=
  frame_of ["Month"; "Headcount"]
    [ [VDate 1698710400000000; VInt (base_count + 3)];
      [VDate 1701302400000000; VInt base_count] ].

(** Pearson's correlation in binary64 arithmetic over the rows where both
    cells are numbers: the instance of [corr] on the sample tables, where
    what matters is whether it is defined, its sign and its order. *)
Definition float_of_int (z : Z) : pyfloat := binary_normalize prec emax z 0 false.

Fixpoint numeric_pairs (xs ys : list value) : list (pyfloat * pyfloat) :=
  match xs, ys with
  | VInt x :: xs', VInt y :: ys' => (float_of_int x, float_of_int y) :: numeric_pairs xs' ys'
  | _ :: xs', _ :: ys' => numeric_pairs xs' ys'
  | _, _ => []
  end.

Definition fsum (l : list pyfloat) : pyfloat := fold_left (SFadd prec emax) l zero.

Definition pearson (xs ys : list value) : pyfloat :=
  let ps := numeric_pairs xs ys in
  let n := float_of_int (Z.of_nat (List.length ps)) in
  let mx := SFdiv prec emax (fsum (map fst ps)) n in
  let my := SFdiv prec emax (fsum (map snd ps)) n in
  let dx := map (fun p => SFsub prec emax (fst p) mx) ps in
  let dy := map (fun p => SFsub prec emax (snd p) my) ps in
  let sxy := fsum (map (fun p => fmul (fst p) (snd p)) (combine dx dy)) in
  let sxx := fsum (map (fun d => fmul d d) dx) in
  let syy := fsum (map (fun d => fmul d d) dy) in
  SFdiv prec emax sxy (SFsqrt prec emax (fmul sxx syy)).

(** Rounding to two decimals the NumPy way: scale, round to the nearest
    integer (ties to even), scale back. *)
Definition rint (x : pyfloat) : pyfloat :=
  match x with
  | S754_finite s m e =>
      let n := match e with
               | Zneg p => round_half_even_div (Zpos m) (2 ^ Zpos p)
               | _ => Zpos m * 2 ^ e
               end in
      if n =? 0 then S754_zero s
      else binary_normalize prec emax (if s then - n else n) 0 false
  | _ => x
  end.

Definition scale_round (x : pyfloat) : pyfloat :=
  SFdiv prec emax (rint (fmul x hundred)) hundred.

(** The data model the pipeline prepares from the sample file. *)
Definition sample_run : result (DataModel * HRDataModel) :=
  Eval vm_compute in
    prepare_complete_model sample_fs parse_decimal sample_hash sample_snapshot
      (__init__ "hr.csv").

Definition empty_frame : DataFrame := mkFrame [] [].

Definition sample_model : DataModel :=
  match sample_run with
  | Ok (dm, _) => dm
  | Raise _ => mkDataModel empty_frame empty_frame empty_frame empty_frame empty_frame empty_frame
  end.

(** The employee table after cleaning, as the object holds it. *)
Definition sample_self : HRDataModel :=
  match sample_run with
  | Ok (_, self) => self
  | Raise _ => __init__ "hr.csv"
  end.

(** A data model with a given number of active and of departed employees,
    all in one department. *)
Definition staff (active departed : nat) : DataFrame :=
  frame_of ["EmployeeNumber"; "Attrition"; "Department"]
    (repeat [VInt 0; VStr "No"; VStr "Sales"] active ++
     repeat [VInt 0; VStr "Yes"; VStr "Sales"] departed).

Definition leavers (departed : nat) : DataFrame :=
  frame_of ["EmployeeNumber"; "Department"; "SeparationDate"]
    (repeat [VInt 0; VStr "Sales"; VDate 1672531200000000] departed).

Definition staff_model (active departed : nat) : DataModel :=
  mkDataModel (staff active departed) empty_frame empty_frame empty_frame
              (leavers departed) (staff active departed).

(** 160 active employees and 23 departed ones. *)
Definition model_160_23 : DataModel := staff_model 160 23.

(** A table with a column that holds one value and a blank. *)
Definition blank_table : DataFrame :=
  frame_of ["EmployeeNumber"; "Over18"]
    [ [VInt 1; VStr "Y"]; [VInt 2; VNaN] ].

Definition blank_self : HRDataModel := set_df_employee (__init__ "blank.csv") blank_table.

Definition sales_filter : Filters := [("Department", FValue (VStr "Sales"))].

Definition sales_manager_filter : Filters :=
  [("Department", FValue (VStr "Sales")); ("JobRole", FList [VStr "Manager"]);
   ("Tenure", FValue (VStr "0-2 years")); ("Gender", FNone)].

End Samples.

Export Samples.

(* ================================================================== *)
(** * Properties *)

(** ** Lists, cells and frames *)

Ltac inv H := inversion H; subst; clear H.

Lemma value_eqb_eq (a b : value) : value_eqb a b = true <-> a = b.
Proof.
  destruct a, b; simpl; split; intro H; try discriminate; try reflexivity.
  - apply Z.eqb_eq in H. now subst.
  - inv H. apply Z.eqb_refl.
  - apply String.eqb_eq in H. now subst.
  - inv H. apply String.eqb_refl.
  - apply Z.eqb_eq in H. now subst.
  - inv H. apply Z.eqb_refl.
Qed.

Lemma value_eqb_refl (a : value) : value_eqb a a = true.
Proof. now apply value_eqb_eq. Qed.

Lemma value_eqb_neq (a b : value) : value_eqb a b = false <-> a <> b.
Proof.
  split.
  - intros H E. apply value_eqb_eq in E. congruence.
  - intro N. destruct (value_eqb a b) eqn:E; [|reflexivity].
    apply value_eqb_eq in E. contradiction.
Qed.

Lemma existsb_value_In (v : value) (l : list value) :
  existsb (value_eqb v) l = true <-> In v l.
Proof.
  rewrite existsb_exists. split.
  - intros [x [Hx E]]. apply value_eqb_eq in E. now subst.
  - intro H. exists v. split; [assumption | apply value_eqb_refl].
Qed.

Lemma existsb_string_In (k : string) (l : list string) :
  existsb (String.eqb k) l = true <-> In k l.
Proof.
  rewrite existsb_exists. split.
  - intros [x [Hx E]]. apply String.eqb_eq in E. now subst.
  - intro H. exists k. split; [assumption | apply String.eqb_refl].
Qed.

Lemma in_columns_In (k : string) (df : DataFrame) :
  in_columns k df = true <-> In k (columns df).
Proof. apply existsb_string_In. Qed.

Lemma select_rows_mask (p : Row -> bool) (rs : list Row) :
  select_rows rs (map p rs) = filter p rs.
Proof.
  induction rs as [|r rs IH]; simpl; [reflexivity|].
  rewrite IH. reflexivity.
Qed.

Lemma filter_filter {A : Type} (f g : A -> bool) (l : list A) :
  filter f (filter g l) = filter (fun x => g x && f x) l.
Proof.
  induction l as [|x l IH]; simpl; [reflexivity|].
  destruct (g x); simpl; [destruct (f x)|]; now rewrite IH.
Qed.

Lemma filter_true {A : Type} (l : list A) : filter (fun _ => true) l = l.
Proof. induction l as [|x l IH]; simpl; [reflexivity | now rewrite IH]. Qed.

Lemma filter_length_mono {A : Type} (f g : A -> bool) (l : list A) :
  (forall x, In x l -> f x = true -> g x = true) ->
  (List.length (filter f l) <= List.length (filter g l))%nat.
Proof.
  induction l as [|x l IH]; intro H; simpl; [lia|].
  assert (IH' : (List.length (filter f l) <= List.length (filter g l))%nat).
  { apply IH. intros y Hy. apply H. now right. }
  destruct (f x) eqn:Ef.
  - rewrite (H x (or_introl eq_refl) Ef). simpl. lia.
  - destruct (g x); simpl; lia.
Qed.

Lemma getitem_series (df : DataFrame) (k : string) :
  in_columns k df = true -> getitem df k = Ok (series df k).
Proof. intro H. unfold getitem. now rewrite H. Qed.

Lemma getitem_absent (df : DataFrame) (k : string) :
  in_columns k df = false -> getitem df k = Raise (KeyError k).
Proof. intro H. unfold getitem. now rewrite H. Qed.

Lemma getitem_ok_inv (df : DataFrame) (k : string) (s : list value) :
  getitem df k = Ok s -> in_columns k df = true /\ s = series df k.
Proof.
  unfold getitem. destruct (in_columns k df); intro H; [|discriminate].
  inv H. split; reflexivity.
Qed.

(** ** The filter loop *)

Lemma row_matches_cons (cols : list string) (entry : string * filter_value)
    (items : Filters) (r : Row) :
  row_matches cols (entry :: items) r =
  (negb (constrains cols entry) || satisfies r entry) && row_matches cols items r.
Proof. reflexivity. Qed.

(** The loop keeps the header and keeps exactly the rows that match. *)
Lemma apply_items_filter (items : Filters) (d : DataFrame) :
  apply_items d items =
  Ok (mkFrame (columns d) (filter (row_matches (columns d) items) (rows d))).
Proof.
  revert d. induction items as [|[key value] rest IH]; intro d.
  - simpl. rewrite filter_true. now destruct d.
  - simpl apply_items.
    assert (Hskip : constrains (columns d) (key, value) = false ->
              filter (row_matches (columns d) ((key, value) :: rest)) (rows d) =
              filter (row_matches (columns d) rest) (rows d)).
    { intro Hc. apply filter_ext. intro r. rewrite row_matches_cons, Hc. reflexivity. }
    destruct (in_columns key d && negb (is_None value)) eqn:Hc.
    + assert (Hin : in_columns key d = true) by now apply andb_true_iff in Hc.
      assert (Hstep : forall p : Pandas.value -> bool,
                (forall r, satisfies r (key, value) = p (cell r key)) ->
                apply_items (select d (map p (series d key))) rest =
                Ok (mkFrame (columns d)
                      (filter (row_matches (columns d) ((key, value) :: rest)) (rows d)))).
      { intros p Hp. rewrite IH. simpl columns. simpl rows. f_equal. f_equal.
        unfold series. rewrite map_map.
        rewrite (select_rows_mask (fun r => p (cell r key))).
        rewrite filter_filter. apply filter_ext. intro r.
        rewrite row_matches_cons.
        unfold constrains. simpl fst. simpl snd.
        unfold in_columns in Hc. rewrite Hc. simpl. now rewrite Hp. }
      destruct value as [|v|vs].
      * simpl in Hc. rewrite andb_false_r in Hc. discriminate.
      * rewrite (getitem_series _ _ Hin). simpl bind.
        apply (Hstep (fun c => cell_eq c v)). intro r. reflexivity.
      * rewrite (getitem_series _ _ Hin). simpl bind.
        apply (Hstep (fun c => cell_isin c vs)). intro r. reflexivity.
    + rewrite IH. rewrite Hskip; [reflexivity | exact Hc].
Qed.

Lemma row_matches_constraining (cols : list string) (items : Filters) (r : Row) :
  row_matches cols (filter (constrains cols) items) r = row_matches cols items r.
Proof.
  induction items as [|entry items IH]; [reflexivity|].
  simpl filter. rewrite row_matches_cons.
  destruct (constrains cols entry) eqn:Hc.
  - rewrite row_matches_cons, Hc, IH. reflexivity.
  - rewrite IH. reflexivity.
Qed.

Lemma row_matches_spec (cols : list string) (items : Filters) (r : Row) :
  row_matches cols items r = true <->
  forall entry, In entry items -> constrains cols entry = true -> satisfies r entry = true.
Proof.
  unfold row_matches. rewrite forallb_forall. split.
  - intros H entry Hin Hc. specialize (H entry Hin). rewrite Hc in H. exact H.
  - intros H entry Hin. destruct (constrains cols entry) eqn:Hc; [|reflexivity].
    simpl. now apply H.
Qed.


Lemma filtered_view_rows (dm : DataModel) (filters : option Filters) :
  filtered_view dm filters =
  Ok (mkFrame (columns (merged dm))
        (filter (view_test (columns (merged dm)) filters) (rows (merged dm)))).
Proof.
  unfold filtered_view, _apply_filters. destruct filters as [items|]; simpl.
  - unfold copy. rewrite apply_items_filter. reflexivity.
  - rewrite filter_true. now destruct (merged dm).
Qed.

Lemma calculate_headcount_view (dm : DataModel) (filters : option Filters) (view : DataFrame) :
  filtered_view dm filters = Ok view ->
  calculate_headcount dm filters =
    if in_columns "Attrition" view
    then Ok (Z.of_nat (List.length (filter is_active (rows view))))
    else Raise (KeyError "Attrition").
Proof.
  unfold filtered_view, calculate_headcount.
  destruct (_apply_filters dm (Shared Merged) filters) as [r|e]; simpl; [|discriminate].
  intro H. inv H. unfold getitem.
  destruct (in_columns "Attrition" (deref dm r)); simpl; [|reflexivity].
  unfold len, series_eq. simpl rows. rewrite map_map.
  rewrite (select_rows_mask (fun r0 => cell_eq (cell r0 "Attrition") (VStr "No"))).
  reflexivity.
Qed.

(** ** Claim C10 *)

(** C10. For every table and every filter mapping, [_apply_filters] never
    raises; the entries whose key is not a column of the table, or whose
    value is [None], impose no constraint (the view is the one obtained
    from the remaining entries alone); the view keeps the header, and its
    rows are exactly the rows of the table that satisfy every remaining
    entry: equality with the value, or membership when it is a list.
    Without a mapping the table itself is handed back. *)
Theorem apply_filters_skips_and_restricts
    (dm : DataModel) (df : frame_ref) (items : Filters) :
  exists view,
    _apply_filters dm df (Some items) = Ok (Local view) /\
    _apply_filters dm df (Some (filter (constrains (columns (deref dm df))) items))
      = Ok (Local view) /\
    columns view = columns (deref dm df) /\
    (forall r, In r (rows view) <->
               In r (rows (deref dm df)) /\
               forall key value, In (key, value) items ->
                 In key (columns (deref dm df)) -> value <> FNone ->
                 match value with
                 | FNone => True
                 | FValue v => cell_eq (cell r key) v = true
                 | FList vs => cell_isin (cell r key) vs = true
                 end) /\
    _apply_filters dm df None = Ok df.
Proof.
  set (table := deref dm df).
  exists (mkFrame (columns table) (filter (row_matches (columns table) items) (rows table))).
  unfold _apply_filters, copy. fold table.
  rewrite !apply_items_filter. simpl.
  repeat split.
  - f_equal. f_equal. f_equal. apply filter_ext. intro r.
    apply row_matches_constraining.
  - apply filter_In in H. tauto.
  - apply filter_In in H. destruct H as [_ H].
    intros key value Hin Hcol Hval.
    assert (Hs : satisfies r (key, value) = true).
    { apply (proj1 (row_matches_spec _ _ _) H (key, value) Hin).
      unfold constrains. simpl. apply andb_true_iff. split.
      - now apply existsb_string_In.
      - destruct value; [contradiction | reflexivity | reflexivity]. }
    destruct value; [exact I | exact Hs | exact Hs].
  - intros [Hin H]. apply filter_In. split; [assumption|].
    apply row_matches_spec. intros [key value] Hentry Hc.
    unfold constrains in Hc. simpl in Hc. apply andb_true_iff in Hc.
    destruct Hc as [Hcol Hval].
    apply existsb_string_In in Hcol.
    assert (Hne : value <> FNone) by (intro E; subst; discriminate).
    specialize (H key value Hentry Hcol Hne).
    unfold satisfies. simpl. destruct value; [reflexivity | exact H | exact H].
Qed.

(** ** Claim C4 *)

(** C4. For every filter mapping (or none), [calculate_headcount] returns
    the number of rows of the filtered merged view whose Attrition value
    is 'No' (a [KeyError] when the view has no such column); and when the
    rows matching [f'] are among the rows matching [f], the headcount
    under [f'] is at most the headcount under [f]. *)
Theorem headcount_counts_active_rows_monotonically (dm : DataModel) :
  (forall filters, exists view,
      filtered_view dm filters = Ok view /\
      calculate_headcount dm filters =
        if in_columns "Attrition" view
        then Ok (Z.of_nat (List.length (filter is_active (rows view))))
        else Raise (KeyError "Attrition")) /\
  (forall f f' view view' n n',
      filtered_view dm f = Ok view ->
      filtered_view dm f' = Ok view' ->
      incl (rows view') (rows view) ->
      calculate_headcount dm f = Ok n ->
      calculate_headcount dm f' = Ok n' ->
      n' <= n).
Proof.
  split.
  - intro filters. eexists. split; [apply filtered_view_rows|].
    apply calculate_headcount_view. apply filtered_view_rows.
  - intros f f' view view' n n' Hv Hv' Hincl Hn Hn'.
    rewrite (calculate_headcount_view _ _ _ Hv) in Hn.
    rewrite (calculate_headcount_view _ _ _ Hv') in Hn'.
    rewrite filtered_view_rows in Hv, Hv'. inv Hv. inv Hv'.
    unfold in_columns in Hn, Hn'. cbn [columns rows] in Hn, Hn', Hincl.
    destruct (existsb (String.eqb "Attrition") (columns (merged dm))); [|discriminate].
    inv Hn. inv Hn'. rewrite !filter_filter.
    apply Nat2Z.inj_le. apply filter_length_mono.
    intros r Hr Hm. apply andb_true_iff in Hm. destruct Hm as [Hm Ha].
    rewrite Ha, andb_true_r.
    assert (Hin : In r (filter (view_test (columns (merged dm)) f) (rows (merged dm)))).
    { apply Hincl. apply filter_In. split; assumption. }
    apply filter_In in Hin. tauto.
Qed.

Lemma headcount_counts_active_rows_monotonically_witness :
  calculate_headcount sample_model None = Ok 3 /\
  calculate_headcount sample_model (Some sales_manager_filter) = Ok 1 /\
  1 <= 3.
Proof.
  assert (Hn : calculate_headcount sample_model None = Ok 3)
    by (vm_compute; reflexivity).
  assert (Hn' : calculate_headcount sample_model (Some sales_manager_filter) = Ok 1)
    by (vm_compute; reflexivity).
  split; [exact Hn | split; [exact Hn'|]].
  apply (proj2 (headcount_counts_active_rows_monotonically sample_model)
           None (Some sales_manager_filter) _ _ 3 1
           (filtered_view_rows sample_model None)
           (filtered_view_rows sample_model (Some sales_manager_filter))).
  - vm_compute. intros r H.
    destruct H as [H|H]; [right; right; left; exact H | destruct H].
  - exact Hn.
  - exact Hn'.
Defined.

(** ** Signs of rounded floats *)

Lemma bind_ok_inv {A B : Type} (c : result A) (k : A -> result B) (b : B) :
  bind c k = Ok b -> exists a, c = Ok a /\ k a = Ok b.
Proof. destruct c as [a|e]; simpl; intro H; [now exists a | discriminate]. Qed.


Lemma iter_pos_invariant {A : Type} (P : A -> Prop) (f : A -> A) :
  (forall x, P x -> P (f x)) ->
  forall (n : positive) (x : A), P x -> P (iter_pos f n x).
Proof.
  intro Hf. induction n as [n IH|n IH|]; intros x Hx; simpl; auto.
Qed.

Lemma shr_1_nonneg (mrs : shr_record) : 0 <= shr_m mrs -> 0 <= shr_m (shr_1 mrs).
Proof.
  destruct mrs as [m r s]. simpl.
  destruct m as [|p|p]; [simpl; lia | | lia].
  intros _. destruct p; simpl; lia.
Qed.

Lemma shr_record_of_loc_m (m : Z) (l : location) : shr_m (shr_record_of_loc m l) = m.
Proof. destruct l as [|[]]; reflexivity. Qed.

Lemma shr_fexp_nonneg (p x m e : Z) (l : location) :
  0 <= m -> 0 <= shr_m (fst (shr_fexp p x m e l)).
Proof.
  intro Hm. unfold shr_fexp, shr.
  destruct (fexp p x (Zdigits2 m + e) - e) as [|n|n]; simpl;
    try (rewrite shr_record_of_loc_m; exact Hm).
  apply (iter_pos_invariant (fun mrs => 0 <= shr_m mrs)).
  - exact shr_1_nonneg.
  - rewrite shr_record_of_loc_m. exact Hm.
Qed.

Lemma round_nearest_even_nonneg (m : Z) (l : location) :
  0 <= m -> 0 <= round_nearest_even m l.
Proof.
  intro Hm. destruct l as [|[]]; simpl; try lia.
  destruct (Z.even m); lia.
Qed.

(** Rounding keeps the sign it is given and never yields NaN. *)
Lemma binary_round_aux_signed (p x : Z) (s : bool) (m e : Z) (l : location) :
  0 <= m -> signed_as s (binary_round_aux p x s m e l).
Proof.
  intro Hm. unfold binary_round_aux.
  pose proof (shr_fexp_nonneg p x m e l Hm) as H1.
  destruct (shr_fexp p x m e l) as [mrs' e'] eqn:E1. simpl in H1.
  pose proof (shr_fexp_nonneg p x _ e' loc_Exact
                (round_nearest_even_nonneg _ (loc_of_shr_record mrs') H1)) as H2.
  destruct (shr_fexp p x (round_nearest_even (shr_m mrs') (loc_of_shr_record mrs')) e' loc_Exact)
    as [mrs'' e''] eqn:E2.
  simpl in H2.
  destruct (shr_m mrs'') as [|q|q]; simpl; [reflexivity | | lia].
  destruct (e'' <=? x - p); reflexivity.
Qed.

Lemma div_core_nonneg (p x : Z) (m1 m2 : positive) (e1 e2 : Z) :
  0 <= fst (fst (SFdiv_core_binary p x (Zpos m1) e1 (Zpos m2) e2)).
Proof.
  unfold SFdiv_core_binary.
  set (s := e1 - e2 - _).
  set (m' := match s with Zpos _ => Z.shiftl (Zpos m1) s | Z0 => Zpos m1 | Zneg _ => 0 end).
  assert (Hm' : 0 <= m').
  { subst m'. destruct s; try lia. apply Z.shiftl_nonneg. lia. }
  pose proof (Z.div_pos m' (Zpos m2) Hm' ltac:(lia)) as Hq.
  unfold Z.div in Hq.
  destruct (Z.div_eucl m' (Zpos m2)) as [q r]. exact Hq.
Qed.

(** The quotient of a non-negative integer by a positive one. *)
Lemma div_exact_signed (a b : Z) :
  0 <= a -> 0 < b -> signed_as false (SFdiv prec emax (exact a) (exact b)).
Proof.
  intros Ha Hb. destruct b as [|b|b]; try lia.
  destruct a as [|a|a]; try lia; simpl exact.
  - reflexivity.
  - unfold SFdiv.
    pose proof (div_core_nonneg prec emax a b 0 0) as Hq.
    destruct (SFdiv_core_binary prec emax (Zpos a) 0 (Zpos b) 0) as [[mz ez] lz].
    simpl in Hq. apply binary_round_aux_signed. exact Hq.
Qed.

Lemma mul_hundred_signed (x : pyfloat) :
  signed_as false x -> signed_as false (fmul x hundred).
Proof.
  unfold fmul, hundred, SFmul.
  destruct x as [s|s| |s m e]; simpl signed_as; intro H; try contradiction; subst;
    try reflexivity.
  apply binary_round_aux_signed. lia.
Qed.

Lemma hundredths_nonneg (m : positive) (e : Z) : 0 <= hundredths m e.
Proof.
  unfold hundredths. destruct e as [|p|p].
  - lia.
  - assert (0 < 2 ^ Zpos p) by (apply Z.pow_pos_nonneg; lia). nia.
  - unfold round_half_even_div.
    assert (Hpow : 0 < 2 ^ Zpos p) by (apply Z.pow_pos_nonneg; lia).
    assert (Hq : 0 <= Zpos m * 100 / 2 ^ Zpos p) by (apply Z.div_pos; lia).
    destruct (2 * ((Zpos m * 100) mod 2 ^ Zpos p) ?= 2 ^ Zpos p); try lia.
    destruct (Z.even (Zpos m * 100 / 2 ^ Zpos p)); lia.
Qed.

Lemma py_round2_signed (x : pyfloat) :
  signed_as false x -> signed_as false (py_round2 x).
Proof.
  destruct x as [s|s| |s m e]; simpl; intro H; try contradiction; subst;
    try reflexivity.
  pose proof (hundredths_nonneg m e) as Hn.
  destruct (hundredths m e) as [|n|n]; try lia.
  - reflexivity.
  - apply (div_exact_signed (Zpos n) 100); lia.
Qed.

Lemma signed_nonneg (x : pyfloat) : signed_as false x -> fleb zero x = true.
Proof.
  destruct x as [s|s| |s m e]; simpl; intro H; try contradiction; subst; reflexivity.
Qed.

Lemma len_nonneg (df : DataFrame) : 0 <= len df.
Proof. unfold len. lia. Qed.

Lemma calculate_headcount_nonneg (dm : DataModel) (filters : option Filters) (h : Z) :
  calculate_headcount dm filters = Ok h -> 0 <= h.
Proof.
  unfold calculate_headcount. intro H.
  apply bind_ok_inv in H. destruct H as [r [_ H]].
  apply bind_ok_inv in H. destruct H as [a [_ H]].
  inv H. apply len_nonneg.
Qed.

Lemma calculate_separations_nonneg (dm : DataModel) (now : Z)
    (filters : option Filters) (period : Z) (s : Z) :
  calculate_separations dm now filters period = Ok s -> 0 <= s.
Proof.
  unfold calculate_separations. intro H.
  apply bind_ok_inv in H. destruct H as [r [_ H]].
  apply bind_ok_inv in H. destruct H as [r' [_ H]].
  inv H. apply len_nonneg.
Qed.

(** The float model on values Python prints: [round] to two decimals
    rounds the exact binary value, ties to even; integer division rounds
    once. *)
Example py_round2_examples :
  SF2Prim (py_round2 (Prim2SF 0.125)) = 0.12%float /\
  SF2Prim (py_round2 (Prim2SF 2.675)) = 2.67%float /\
  SF2Prim (py_round2 (Prim2SF 0.005)) = 0.01%float /\
  SF2Prim (py_round2 (Prim2SF 14.375)) = 14.38%float /\
  SF2Prim (py_round2 (Prim2SF (-0.001))) = (-0)%float /\
  SF2Prim (py_round2 (Prim2SF 1e22)) = 1e22%float /\
  int_truediv 1 3 = Ok (Prim2SF 0.3333333333333333) /\
  int_truediv 23 160 = Ok (Prim2SF 0.14375) /\
  SF2Prim (fmul (Prim2SF 0.14375) hundred) = 14.374999999999998%float.
Proof. repeat split; vm_compute; reflexivity. Qed.

(** The end-to-end scenario of the specification: ten employees, three of
    them departed; headcount 7, separations 3, attrition rate 42.86. *)
Example attrition_rate_scenario :
  calculate_headcount (staff_model 7 3) None = Ok 7 /\
  calculate_separations (staff_model 7 3) 0 None 12 = Ok 3 /\
  exists rate,
    calculate_attrition_rate (staff_model 7 3) 0 None 12 = Ok rate /\
    SF2Prim rate = 42.86%float.
Proof.
  split; [vm_compute; reflexivity|]. split; [vm_compute; reflexivity|].
  eexists. split; vm_compute; reflexivity.
Qed.

(** ** Claim C1 *)

(** C1 as stated fails: with 23 separations and a headcount of 160 the
    method returns 14.37, while [round(100 * 23 / 160, 2)] is 14.38 (the
    exact value is 14.375). *)
Lemma attrition_rate_is_not_the_formula_as_written :
  calculate_separations model_160_23 0 None 12 = Ok 23 /\
  calculate_headcount model_160_23 None = Ok 160 /\
  exists returned written,
    calculate_attrition_rate model_160_23 0 None 12 = Ok returned /\
    rate_as_written 23 160 = Ok written /\
    SF2Prim returned = 14.37%float /\
    SF2Prim written = 14.38%float /\
    returned <> written.
Proof.
  split; [vm_compute; reflexivity|].
  split; [vm_compute; reflexivity|].
  exists (S754_finite false 8089590830664253 (-49)).
  exists (S754_finite false 8095220330198467 (-49)).
  repeat split; try (vm_compute; reflexivity).
  discriminate.
Qed.

(** C1, amended. Whenever the two counts are returned, with
    [separations = calculate_separations(filters, period_months)] and
    [headcount = calculate_headcount(filters)], [calculate_attrition_rate]
    returns: exactly 0.0 when the headcount is 0, whatever the number of
    separations; otherwise [round((separations / headcount) * 100, 2)],
    the quotient being rounded to a float before it is scaled.  The
    result is never negative and never NaN. *)
Theorem attrition_rate_rounds_scaled_quotient
    (dm : DataModel) (now : Z) (filters : option Filters) (period_months : Z)
    (separations headcount : Z) :
  calculate_separations dm now filters period_months = Ok separations ->
  calculate_headcount dm filters = Ok headcount ->
  exists rate,
    calculate_attrition_rate dm now filters period_months = Ok rate /\
    (headcount = 0 -> rate = zero) /\
    (headcount <> 0 ->
       exists quotient,
         int_truediv separations headcount = Ok quotient /\
         rate = py_round2 (fmul quotient hundred)) /\
    fleb zero rate = true.
Proof.
  intros Hs Hh.
  pose proof (calculate_separations_nonneg _ _ _ _ _ Hs) as Hs0.
  pose proof (calculate_headcount_nonneg _ _ _ Hh) as Hh0.
  unfold calculate_attrition_rate. rewrite Hs, Hh. simpl bind.
  destruct (headcount =? 0) eqn:E.
  - apply Z.eqb_eq in E. exists zero. repeat split; try reflexivity. lia.
  - apply Z.eqb_neq in E. unfold int_truediv.
    apply Z.eqb_neq in E. rewrite E. simpl bind. apply Z.eqb_neq in E.
    eexists. split; [reflexivity|]. split; [lia|]. split.
    + intros _. eexists. split; reflexivity.
    + apply signed_nonneg, py_round2_signed, mul_hundred_signed, div_exact_signed; lia.
Qed.

Lemma attrition_rate_rounds_scaled_quotient_witness :
  exists rate,
    calculate_attrition_rate sample_model 0 (Some sales_filter) 12 = Ok rate /\
    (1 = 0 -> rate = zero) /\
    (1 <> 0 ->
       exists quotient,
         int_truediv 1 1 = Ok quotient /\ rate = py_round2 (fmul quotient hundred)) /\
    fleb zero rate = true.
Proof.
  apply (attrition_rate_rounds_scaled_quotient sample_model 0 (Some sales_filter) 12 1 1).
  - vm_compute. reflexivity.
  - vm_compute. reflexivity.
Defined.

(** ** Claim C3 *)

Lemma cell_le_int_num (n : num) (k : Z) : cell_le_int (num_value n) k = Ok (at_most n k).
Proof. destruct n; reflexivity. Qed.

Lemma cell_gt_int_num (n : num) (k : Z) : cell_gt_int (num_value n) k = Ok (above n k).
Proof. destruct n; reflexivity. Qed.

Lemma cell_lt_median_num (n : num) (m : median_value) :
  cell_lt_median (num_value n) m = Ok (below_median n m).
Proof. destruct n, m; reflexivity. Qed.

Lemma cell_eq_yes (v : value) : cell_eq v (VStr "Yes") = overtime_set v.
Proof. destruct v; reflexivity. Qed.

Lemma first_matching_reason_label (job env wlb income : num) (m : median_value)
    (overtime : value) (since : num) :
  In (first_matching_reason job env wlb income m overtime since) reason_labels.
Proof.
  unfold first_matching_reason, reason_labels.
  destruct (at_most job 2); [simpl; tauto|].
  destruct (at_most env 2); [simpl; tauto|].
  destruct (at_most wlb 2); [simpl; tauto|].
  destruct (below_median income m); [simpl; tauto|].
  destruct (overtime_set overtime); [simpl; tauto|].
  destruct (above since 5); simpl; tauto.
Qed.

(** C3. For a row that has the six columns, the five numeric ones holding
    a number or null, and a dataset with a median income, the inferred
    reason is returned, is the label of the first predicate that holds in
    the fixed priority order (a function of the row's cells and of the
    median alone), and is one of the seven fixed labels. *)
Theorem infer_separation_reason_first_match
    (self : HRDataModel) (df : DataFrame) (incomes : list value) (m : median_value)
    (row : Row) (job env wlb income : num) (overtime : value) (since : num) :
  df_employee self = Some df ->
  getitem df "MonthlyIncome" = Ok incomes ->
  median incomes = Ok m ->
  row_get row "JobSatisfaction" = Some (num_value job) ->
  row_get row "EnvironmentSatisfaction" = Some (num_value env) ->
  row_get row "WorkLifeBalance" = Some (num_value wlb) ->
  row_get row "MonthlyIncome" = Some (num_value income) ->
  row_get row "OverTime" = Some overtime ->
  row_get row "YearsSinceLastPromotion" = Some (num_value since) ->
  _infer_separation_reason self row =
    Ok (first_matching_reason job env wlb income m overtime since) /\
  In (first_matching_reason job env wlb income m overtime since) reason_labels.
Proof.
  intros Hdf Hinc Hmed Hjob Henv Hwlb Hincome Hot Hsince.
  split; [|apply first_matching_reason_label].
  unfold _infer_separation_reason, row_getitem, subscript_of.
  rewrite Hjob, Henv, Hwlb, Hincome, Hot, Hsince, Hdf. cbn [bind].
  rewrite Hinc. cbn [bind]. rewrite Hmed. cbn [bind].
  rewrite !cell_le_int_num, cell_lt_median_num, cell_gt_int_num, cell_eq_yes.
  cbn [bind]. unfold first_matching_reason.
  destruct (at_most job 2), (at_most env 2), (at_most wlb 2),
    (below_median income m), (overtime_set overtime), (above since 5); reflexivity.
Qed.

Lemma infer_separation_reason_first_match_witness :
  _infer_separation_reason sample_self
      [("JobSatisfaction", VInt 1); ("EnvironmentSatisfaction", VInt 3);
       ("WorkLifeBalance", VInt 3); ("MonthlyIncome", VInt 3000);
       ("OverTime", VStr "Yes"); ("YearsSinceLastPromotion", VInt 0)] =
    Ok "Low Job Satisfaction" /\
  In "Low Job Satisfaction" reason_labels.
Proof.
  refine (infer_separation_reason_first_match sample_self
           (match df_employee sample_self with Some d => d | None => empty_frame end)
           [VInt 3000; VInt 5000; VInt 9000; VInt 8000; VInt 4000] (MedianHalf 10000)
           _ (Num 1) (Num 3) (Num 3) (Num 3000) (VStr "Yes") (Num 0)
           _ _ _ _ _ _ _ _ _);
    vm_compute; reflexivity.
Defined.

(** ** Writing and projecting columns *)

Lemma row_get_set_cell_same (r : Row) (k : string) (v : value) :
  row_get (set_cell r k v) k = Some v.
Proof.
  induction r as [|[k' v'] r IH]; simpl.
  - now rewrite String.eqb_refl.
  - destruct (String.eqb k k') eqn:E; simpl; rewrite E; [reflexivity | exact IH].
Qed.

Lemma row_get_set_cell_other (r : Row) (k k' : string) (v : value) :
  k' <> k -> row_get (set_cell r k v) k' = row_get r k'.
Proof.
  intro N. induction r as [|[k0 v0] r IH]; simpl.
  - apply String.eqb_neq in N. now rewrite N.
  - destruct (String.eqb k k0) eqn:E; simpl.
    + apply String.eqb_eq in E. subst k0.
      apply String.eqb_neq in N. now rewrite N.
    + now rewrite IH.
Qed.

Lemma cell_set_cell_same (r : Row) (k : string) (v : value) : cell (set_cell r k v) k = v.
Proof. unfold cell. now rewrite row_get_set_cell_same. Qed.

Lemma cell_set_cell_other (r : Row) (k k' : string) (v : value) :
  k' <> k -> cell (set_cell r k v) k' = cell r k'.
Proof. intro N. unfold cell. now rewrite row_get_set_cell_other. Qed.

Lemma assign_cells_length (rs : list Row) (k : string) (vs : list value) :
  List.length (assign_cells rs k vs) = List.length rs.
Proof.
  revert vs. induction rs as [|r rs IH]; intro vs; [reflexivity|].
  destruct vs; simpl; now rewrite IH.
Qed.

Lemma assign_cells_same (rs : list Row) (k : string) (vs : list value) :
  List.length vs = List.length rs ->
  map (fun r => cell r k) (assign_cells rs k vs) = vs.
Proof.
  revert vs. induction rs as [|r rs IH]; intros [|v vs] H; simpl in *;
    try reflexivity; try discriminate.
  rewrite cell_set_cell_same, IH; [reflexivity | lia].
Qed.

Lemma assign_cells_other (rs : list Row) (k k' : string) (vs : list value) :
  k' <> k ->
  map (fun r => cell r k') (assign_cells rs k vs) = map (fun r => cell r k') rs.
Proof.
  intro N. revert vs. induction rs as [|r rs IH]; intro vs; [reflexivity|].
  destruct vs; simpl; rewrite cell_set_cell_other by exact N; now rewrite IH.
Qed.

Lemma series_length (df : DataFrame) (k : string) :
  List.length (series df k) = List.length (rows df).
Proof. unfold series. apply length_map. Qed.

Lemma series_setitem_same (df : DataFrame) (k : string) (vs : list value) :
  List.length vs = List.length (rows df) -> series (setitem df k vs) k = vs.
Proof. intro H. unfold series, setitem. simpl. now apply assign_cells_same. Qed.

Lemma series_setitem_other (df : DataFrame) (k k' : string) (vs : list value) :
  k' <> k -> series (setitem df k vs) k' = series df k'.
Proof. intro N. unfold series, setitem. simpl. now apply assign_cells_other. Qed.

Lemma in_columns_setitem_same (df : DataFrame) (k : string) (vs : list value) :
  in_columns k (setitem df k vs) = true.
Proof.
  unfold setitem. destruct (in_columns k df) eqn:E; unfold in_columns in *; simpl.
  - exact E.
  - rewrite existsb_app. simpl. rewrite String.eqb_refl. apply orb_true_iff. right. reflexivity.
Qed.

Lemma in_columns_setitem_other (df : DataFrame) (k k' : string) (vs : list value) :
  k' <> k -> in_columns k' (setitem df k vs) = in_columns k' df.
Proof.
  intro N. unfold setitem. destruct (in_columns k df); unfold in_columns; simpl;
    [reflexivity|].
  rewrite existsb_app. simpl. apply String.eqb_neq in N. rewrite N.
  now rewrite !orb_false_r.
Qed.

Lemma projected_cell (r : Row) (ks : list string) (k : string) :
  In k ks -> cell (map (fun k' => (k', cell r k')) ks) k = cell r k.
Proof.
  unfold cell at 1. induction ks as [|k0 ks IH]; intro H; [destruct H|].
  simpl. destruct (String.eqb k k0) eqn:E.
  - apply String.eqb_eq in E. now subst.
  - destruct H as [H|H]; [subst; rewrite String.eqb_refl in E; discriminate|].
    now apply IH.
Qed.

Lemma project_present (df : DataFrame) (ks : list string) :
  (forall k, In k ks -> in_columns k df = true) ->
  project df ks =
  Ok (mkFrame ks (map (fun r => map (fun k => (k, cell r k)) ks) (rows df))).
Proof.
  intro H. unfold project.
  assert (Hm : mapM (fun k => if in_columns k df then Ok tt else Raise (KeyError k)) ks
               = Ok (map (fun _ => tt) ks)).
  { induction ks as [|k ks IH]; [reflexivity|].
    simpl. rewrite (H k (or_introl eq_refl)). simpl.
    rewrite IH; [reflexivity|]. intros k' Hk'. apply H. now right. }
  rewrite Hm. reflexivity.
Qed.

Lemma mapM_total {A B : Type} (f : A -> result B) (g : A -> B) (l : list A) :
  (forall x, In x l -> f x = Ok (g x)) -> mapM f l = Ok (map g l).
Proof.
  induction l as [|x l IH]; intro H; [reflexivity|].
  simpl. rewrite (H x (or_introl eq_refl)). simpl.
  rewrite IH; [reflexivity|]. intros y Hy. apply H. now right.
Qed.

Lemma filterM_total {A : Type} (p : A -> result bool) (q : A -> bool) (l : list A) :
  (forall x, In x l -> p x = Ok (q x)) -> filterM p l = Ok (filter q l).
Proof.
  induction l as [|x l IH]; intro H; [reflexivity|].
  simpl. rewrite (H x (or_introl eq_refl)). simpl.
  rewrite IH; [reflexivity|]. intros y Hy. apply H. now right.
Qed.

(** ** Distinct values in order of first appearance *)

Lemma unique_from_In (s seen : list value) (v : value) :
  In v (unique_from seen s) <-> In v s /\ ~ In v seen.
Proof.
  revert seen. induction s as [|x s IH]; intro seen; simpl; [tauto|].
  destruct (existsb (value_eqb x) seen) eqn:E.
  - apply existsb_value_In in E. rewrite IH. split.
    + tauto.
    + intros [[H|H] N]; [subst; contradiction | tauto].
  - assert (Hx : ~ In x seen).
    { intro H. apply existsb_value_In in H. congruence. }
    simpl. rewrite IH. simpl. split.
    + intros [H|[H N]]; [subst; tauto | tauto].
    + intros [[H|H] N]; [tauto|].
      destruct (value_eqb x v) eqn:Ev.
      * apply value_eqb_eq in Ev. tauto.
      * apply value_eqb_neq in Ev. right. tauto.
Qed.

Lemma unique_from_NoDup (s seen : list value) : NoDup (unique_from seen s).
Proof.
  revert seen. induction s as [|x s IH]; intro seen; simpl; [constructor|].
  destruct (existsb (value_eqb x) seen); [apply IH|].
  constructor; [|apply IH].
  rewrite unique_from_In. simpl. tauto.
Qed.

Lemma first_index_skip (v x : value) (s : list value) :
  v <> x -> first_index v (x :: s) = S (first_index v s).
Proof. intro N. simpl. apply value_eqb_neq in N. now rewrite N. Qed.

Lemma unique_from_order (s seen : list value) (i j : nat) (vi vj : value) :
  nth_error (unique_from seen s) i = Some vi ->
  nth_error (unique_from seen s) j = Some vj ->
  (i < j)%nat ->
  (first_index vi s < first_index vj s)%nat.
Proof.
  revert seen i j. induction s as [|x s IH]; intros seen i j Hi Hj Hlt.
  - destruct i; discriminate.
  - simpl unique_from in Hi, Hj.
    destruct (existsb (value_eqb x) seen) eqn:E.
    + apply existsb_value_In in E.
      assert (Ni : vi <> x).
      { intro. subst. apply nth_error_In, unique_from_In in Hi. tauto. }
      assert (Nj : vj <> x).
      { intro. subst. apply nth_error_In, unique_from_In in Hj. tauto. }
      rewrite !first_index_skip by assumption.
      apply -> Nat.succ_lt_mono. eapply IH; eassumption.
    + destruct j as [|j]; [lia|]. simpl in Hj.
      assert (Nj : vj <> x).
      { intro. subst. apply nth_error_In, unique_from_In in Hj. simpl in Hj. tauto. }
      rewrite (first_index_skip vj x s Nj).
      destruct i as [|i]; simpl in Hi.
      * inv Hi. simpl. rewrite value_eqb_refl. lia.
      * assert (Ni : vi <> x).
        { intro. subst. apply nth_error_In, unique_from_In in Hi. simpl in Hi. tauto. }
        rewrite (first_index_skip vi x s Ni).
        apply -> Nat.succ_lt_mono. eapply IH; [eassumption | eassumption | lia].
Qed.

Lemma combine_fst {A B : Type} (l : list A) (l' : list B) :
  List.length l = List.length l' -> map fst (combine l l') = l.
Proof.
  revert l'. induction l as [|x l IH]; intros [|y l'] H; simpl in *;
    try reflexivity; try discriminate.
  rewrite IH; [reflexivity | lia].
Qed.

Lemma combine_snd {A B : Type} (l : list A) (l' : list B) :
  List.length l = List.length l' -> map snd (combine l l') = l'.
Proof.
  revert l'. induction l as [|x l IH]; intros [|y l'] H; simpl in *;
    try reflexivity; try discriminate.
  rewrite IH; [reflexivity | lia].
Qed.

(** ** Claim C6 *)

(** C6. For every employee table with a Department column,
    [create_department_table] returns a table with one row per distinct
    department value: its names are pairwise distinct and are exactly the
    values of the column; its ids are 1..N row by row; and the names stand
    in the order in which they are first met in the column. *)
Theorem department_dimension_one_row_per_department
    (self : HRDataModel) (df : DataFrame) (col : list value) :
  df_employee self = Some df ->
  getitem df "Department" = Ok col ->
  exists t self' names,
    create_department_table self = Ok (t, self') /\
    df_department self' = Some t /\
    getitem t "DepartmentName" = Ok names /\
    getitem t "DepartmentID" =
      Ok (map (fun i => VInt (Z.of_nat i)) (seq 1 (List.length names))) /\
    List.length (rows t) = List.length names /\
    NoDup names /\
    (forall v, In v names <-> In v col) /\
    (forall i j vi vj,
        nth_error names i = Some vi -> nth_error names j = Some vj ->
        (i < j)%nat -> (first_index vi col < first_index vj col)%nat).
Proof.
  intros Hdf Hcol.
  unfold create_department_table, subscript_of. rewrite Hdf. cbn [bind].
  rewrite Hcol. cbn [bind].
  set (names := unique col).
  set (ids := map (fun i => VInt (Z.of_nat i)) (seq 1 (List.length names))).
  assert (Hlen : List.length ids = List.length names).
  { subst ids. now rewrite length_map, length_seq. }
  eexists. eexists. exists names.
  split; [reflexivity|].
  split; [reflexivity|].
  split.
  { unfold getitem, frame_of_columns2. cbn [in_columns columns rows existsb].
    replace (String.eqb "DepartmentName" "DepartmentID") with false by reflexivity.
    rewrite String.eqb_refl. cbn [orb]. f_equal.
    rewrite map_map.
    transitivity (map snd (combine ids names)); [|now apply combine_snd].
    apply map_ext. intros [a b]. reflexivity. }
  split.
  { unfold getitem, frame_of_columns2. cbn [in_columns columns rows existsb].
    rewrite String.eqb_refl. cbn [orb]. f_equal.
    rewrite map_map.
    transitivity (map fst (combine ids names)); [|now apply combine_fst].
    apply map_ext. intros [a b]. reflexivity. }
  split.
  { unfold frame_of_columns2. cbn [rows]. rewrite length_map, length_combine. lia. }
  split; [apply unique_from_NoDup|].
  split.
  { intro v. subst names. unfold unique. rewrite unique_from_In. simpl. tauto. }
  intros i j vi vj Hi Hj Hlt. eapply unique_from_order; eassumption.
Qed.

Lemma department_dimension_one_row_per_department_witness :
  exists t self' names,
    create_department_table sample_self = Ok (t, self') /\
    df_department self' = Some t /\
    getitem t "DepartmentName" = Ok names /\
    getitem t "DepartmentID" =
      Ok (map (fun i => VInt (Z.of_nat i)) (seq 1 (List.length names))) /\
    List.length (rows t) = List.length names /\
    NoDup names /\
    (forall v, In v names <->
               In v [VStr "Sales"; VStr "Research"; VStr "Sales";
                     VStr "Human Resources"; VStr "Research"]) /\
    (forall i j vi vj,
        nth_error names i = Some vi -> nth_error names j = Some vj ->
        (i < j)%nat ->
        (first_index vi [VStr "Sales"; VStr "Research"; VStr "Sales";
                         VStr "Human Resources"; VStr "Research"]
         < first_index vj [VStr "Sales"; VStr "Research"; VStr "Sales";
                           VStr "Human Resources"; VStr "Research"])%nat).
Proof.
  refine (department_dimension_one_row_per_department sample_self
            (match df_employee sample_self with Some d => d | None => empty_frame end)
            _ _ _);
    vm_compute; reflexivity.
Defined.

(** ** Claim C7 *)

Ltac split_comparisons :=
  repeat match goal with
         | |- context [Z.ltb ?x ?y] => destruct (Z.ltb_spec x y)
         | |- context [Z.leb ?x ?y] => destruct (Z.leb_spec x y)
         end.

Lemma cut_cell_age (a : Z) : cut_cell age_bins age_labels (VInt a) = Ok (age_band (Num a)).
Proof.
  unfold cut_cell, age_band, band_cell, age_bins, age_labels.
  cbn [searchsorted_left band_of].
  split_comparisons; cbn; try reflexivity; lia.
Qed.

Lemma cut_ages (ages : list num) :
  cut (map num_value ages) age_bins age_labels = Ok (map age_band ages).
Proof.
  unfold cut. induction ages as [|n ages IH]; [reflexivity|].
  destruct n; cbn [map mapM num_value]; rewrite ?cut_cell_age;
    cbn [bind cut_cell]; rewrite IH; reflexivity.
Qed.

Lemma age_band_intervals (a : Z) :
  age_band (Num a) =
    if (0 <? a) && (a <=? 25) then VStr "18-25"
    else if (25 <? a) && (a <=? 35) then VStr "26-35"
    else if (35 <? a) && (a <=? 45) then VStr "36-45"
    else if (45 <? a) && (a <=? 55) then VStr "46-55"
    else if (55 <? a) && (a <=? 100) then VStr "55+"
    else VNaN.
Proof.
  unfold age_band, band_cell, age_bins, age_labels. cbn [band_of].
  split_comparisons; reflexivity.
Qed.

Lemma demographics_age_group (self : HRDataModel) (df : DataFrame) (ages : list num) :
  df_employee self = Some df ->
  in_columns "EmployeeNumber" df = true ->
  getitem df "Age" = Ok (map num_value ages) ->
  exists demo self',
    create_demographics_table self = Ok (demo, self') /\
    df_demographics self' = Some demo /\
    getitem demo "Age" = Ok (map num_value ages) /\
    getitem demo "AgeGroup" = Ok (map age_band ages).
Proof.
  intros Hdf Hnum Hage.
  apply getitem_ok_inv in Hage. destruct Hage as [HinAge Hages].
  unfold create_demographics_table, attribute_of. rewrite Hdf. cbn [bind].
  set (available := "EmployeeNumber" ::
         filter (fun col => in_columns col df)
                ["Gender"; "MaritalStatus"; "EducationField"; "Age"]).
  assert (Havail : forall k, In k available -> in_columns k df = true).
  { intros k [H|H]; [now subst|]. apply filter_In in H. tauto. }
  assert (HAge : In "Age" available).
  { right. apply filter_In. split; [simpl; tauto | exact HinAge]. }
  rewrite (project_present df available Havail). cbn [bind]. unfold copy.
  set (demo := mkFrame available _).
  assert (Hin : in_columns "Age" demo = true) by (now apply in_columns_In).
  assert (Hseries : series demo "Age" = map num_value ages).
  { rewrite Hages. unfold series, demo. cbn [rows]. rewrite map_map.
    apply map_ext. intro r. now apply projected_cell. }
  rewrite Hin, (getitem_series _ _ Hin), Hseries. cbn [bind].
  rewrite cut_ages. cbn [bind].
  eexists. eexists. split; [reflexivity|]. split; [reflexivity|].
  assert (Hlen : List.length (map age_band ages) = List.length (rows demo)).
  { rewrite length_map. rewrite <- (series_length demo "Age"), Hseries.
    now rewrite length_map. }
  split.
  - rewrite getitem_series.
    + rewrite series_setitem_other by discriminate. now rewrite Hseries.
    + rewrite in_columns_setitem_other by discriminate. exact Hin.
  - rewrite getitem_series by apply in_columns_setitem_same.
    now rewrite series_setitem_same.
Qed.

(** C7. The age band of every age is assigned by range membership,
    exclusive low and inclusive high, over the boundaries 0, 25, 35, 45,
    55, 100 (no band outside them); 25 is '18-25', 26 is '26-35', 55 is
    '46-55' and 56 is '55+'; and the demographics table carries, row by
    row, the band of the row's age. *)
Theorem age_band_by_range_membership :
  (forall a : Z,
      cut_cell age_bins age_labels (VInt a) = Ok (age_band (Num a)) /\
      age_band (Num a) =
        if (0 <? a) && (a <=? 25) then VStr "18-25"
        else if (25 <? a) && (a <=? 35) then VStr "26-35"
        else if (35 <? a) && (a <=? 45) then VStr "36-45"
        else if (45 <? a) && (a <=? 55) then VStr "46-55"
        else if (55 <? a) && (a <=? 100) then VStr "55+"
        else VNaN) /\
  cut_cell age_bins age_labels (VInt 25) = Ok (VStr "18-25") /\
  cut_cell age_bins age_labels (VInt 26) = Ok (VStr "26-35") /\
  cut_cell age_bins age_labels (VInt 55) = Ok (VStr "46-55") /\
  cut_cell age_bins age_labels (VInt 56) = Ok (VStr "55+") /\
  (forall (self : HRDataModel) (df : DataFrame) (ages : list num),
      df_employee self = Some df ->
      in_columns "EmployeeNumber" df = true ->
      getitem df "Age" = Ok (map num_value ages) ->
      exists demo self',
        create_demographics_table self = Ok (demo, self') /\
        df_demographics self' = Some demo /\
        getitem demo "Age" = Ok (map num_value ages) /\
        getitem demo "AgeGroup" = Ok (map age_band ages)).
Proof.
  split; [intro a; split; [apply cut_cell_age | apply age_band_intervals]|].
  repeat (split; [reflexivity|]).
  exact demographics_age_group.
Qed.

Lemma age_band_by_range_membership_witness :
  exists demo self',
    create_demographics_table sample_self = Ok (demo, self') /\
    df_demographics self' = Some demo /\
    getitem demo "Age" = Ok [VInt 25; VInt 26; VInt 55; VInt 56; VInt 40] /\
    getitem demo "AgeGroup" =
      Ok [VStr "18-25"; VStr "26-35"; VStr "46-55"; VStr "55+"; VStr "36-45"].
Proof.
  refine (proj2 (proj2 (proj2 (proj2 (proj2 age_band_by_range_membership))))
            sample_self
            (match df_employee sample_self with Some d => d | None => empty_frame end)
            [Num 25; Num 26; Num 55; Num 56; Num 40] _ _ _);
    vm_compute; reflexivity.
Defined.

(** ** Claim C8 *)




(** ** Cleaning *)

Lemma length_le_1_same {A : Type} (l : list A) (a b : A) :
  (List.length l <= 1)%nat -> In a l -> In b l -> a = b.
Proof.
  destruct l as [|x [|y l]]; simpl; intros H Ha Hb; try lia; try tauto.
  destruct Ha as [Ha|[]], Hb as [Hb|[]]. congruence.
Qed.

Lemma notna_In (s : list value) (v : value) :
  In v (filter (fun c => negb (isna c)) s) <-> In v s /\ v <> VNaN.
Proof.
  rewrite filter_In. split; intros [H N]; split; try assumption.
  - intro E. subst. discriminate.
  - destruct v; try reflexivity. contradiction.
Qed.

Lemma nunique_single_valued (s : list value) : nunique s <= 1 <-> single_valued s.
Proof.
  unfold nunique, single_valued, unique.
  set (l := filter (fun c => negb (isna c)) s).
  split.
  - intros H a b Ha Hb Na Nb.
    apply (length_le_1_same (unique_from [] l)); [lia | |];
      apply unique_from_In; (split; [apply notna_In; tauto | simpl; tauto]).
  - intro H.
    pose proof (unique_from_NoDup l []) as Hnd.
    assert (Hin : forall v, In v (unique_from [] l) -> In v s /\ v <> VNaN).
    { intros v Hv. apply unique_from_In in Hv. apply notna_In. tauto. }
    destruct (unique_from [] l) as [|x [|y u]]; simpl; try lia.
    exfalso. inv Hnd. apply H2. left.
    destruct (Hin x (or_introl eq_refl)) as [Hx Nx].
    destruct (Hin y (or_intror (or_introl eq_refl))) as [Hy Ny].
    symmetry. now apply H.
Qed.

Lemma row_get_del_cells (ks : list string) (r : Row) (k : string) :
  ~ In k ks -> row_get (del_cells ks r) k = row_get r k.
Proof.
  intro N. unfold del_cells. induction r as [|[k' v] r IH]; [reflexivity|].
  simpl. destruct (existsb (String.eqb k') ks) eqn:E; simpl.
  - destruct (String.eqb k k') eqn:Ek; [|exact IH].
    apply String.eqb_eq in Ek. subst k'.
    apply existsb_string_In in E. contradiction.
  - now rewrite IH.
Qed.

Lemma series_drop (df : DataFrame) (ks : list string) (k : string) :
  ~ In k ks -> series (drop df ks) k = series df k.
Proof.
  intro N. unfold series, drop. cbn [rows]. rewrite map_map.
  apply map_ext. intro r. unfold cell. now rewrite row_get_del_cells.
Qed.

Lemma drop_nothing (df : DataFrame) : drop df [] = df.
Proof.
  unfold drop. destruct df as [cols rs]. cbn [columns rows]. f_equal.
  - cbn [existsb negb]. apply filter_true.
  - rewrite <- (map_id rs) at 2. apply map_ext. intro r.
    unfold del_cells. cbn [existsb negb]. apply filter_true.
Qed.

Lemma to_numeric_cell_idempotent (parse : string -> option Z) (v : value) :
  to_numeric_cell parse (to_numeric_cell parse v) = to_numeric_cell parse v.
Proof. destruct v as [z|s|t|]; simpl; try reflexivity. now destruct (parse s). Qed.

Lemma to_numeric_cell_numeric (parse : string -> option Z) (v : value) :
  numeric_or_null (to_numeric_cell parse v) = true.
Proof. destruct v as [z|s|t|]; simpl; try reflexivity. now destruct (parse s). Qed.

Lemma coerce_columns_series (parse : string -> option Z) (cs : list string) (df : DataFrame) :
  exists df',
    foldM (coerce_column parse) cs df = Ok df' /\
    columns df' = columns df /\
    List.length (rows df') = List.length (rows df) /\
    forall k, series df' k =
              if existsb (String.eqb k) cs && in_columns k df
              then to_numeric parse (series df k) else series df k.
Proof.
  revert df. induction cs as [|c cs IH]; intro df.
  - exists df. repeat split; reflexivity.
  - cbn [foldM]. unfold coerce_column at 1.
    destruct (in_columns c df) eqn:Hc.
    + rewrite (getitem_series _ _ Hc). cbn [bind].
      set (df1 := setitem df c (to_numeric parse (series df c))).
      destruct (IH df1) as [df' [Hrun [Hcols [Hlen Hser]]]].
      assert (Hcols1 : columns df1 = columns df).
      { unfold df1, setitem. now rewrite Hc. }
      exists df'. split; [exact Hrun|].
      split; [congruence|].
      split; [rewrite Hlen; unfold df1, setitem; cbn [rows]; apply assign_cells_length|].
      intro k. rewrite Hser.
      replace (in_columns k df1) with (in_columns k df)
        by (unfold in_columns; now rewrite Hcols1).
      cbn [existsb].
      destruct (String.eqb k c) eqn:Ek.
      * apply String.eqb_eq in Ek. subst k. rewrite Hc. cbn [orb andb].
        assert (Hs : series df1 c = to_numeric parse (series df c)).
        { apply series_setitem_same. unfold to_numeric.
          now rewrite length_map, series_length. }
        rewrite Hs. rewrite andb_true_r.
        destruct (existsb (String.eqb c) cs); [|reflexivity].
        unfold to_numeric. rewrite map_map. apply map_ext. intro v.
        apply to_numeric_cell_idempotent.
      * apply String.eqb_neq in Ek. cbn [orb].
        unfold df1. rewrite series_setitem_other by exact Ek. reflexivity.
    + cbn [bind]. destruct (IH df) as [df' [Hrun [Hcols [Hlen Hser]]]].
      exists df'. repeat split; try assumption.
      intro k. rewrite Hser. cbn [existsb].
      destruct (String.eqb k c) eqn:Ek; [|reflexivity].
      apply String.eqb_eq in Ek. subst k. rewrite Hc, !andb_false_r. reflexivity.
Qed.

(** ** Claim C9 *)

(** C9 as stated fails: a column holding one value and a blank is not
    constant across the rows, yet the clean stage drops it. *)
Lemma column_with_a_blank_is_dropped :
  df_employee blank_self = Some blank_table /\
  In "Over18" (columns blank_table) /\
  series blank_table "Over18" = [VStr "Y"; VNaN] /\
  constant (series blank_table "Over18") = false /\
  exists df' self',
    clean_data parse_decimal blank_self = Ok (df', self') /\
    ~ In "Over18" (columns df').
Proof.
  split; [reflexivity|].
  split; [simpl; tauto|].
  split; [reflexivity|].
  split; [reflexivity|].
  eexists. eexists. split; [vm_compute; reflexivity|].
  simpl. intros [H|[]]. discriminate.
Qed.

(** C9, amended. For every loaded record set the clean stage returns; it
    keeps a column if and only if the column has two non-null cells that
    differ (so it drops the columns with at most one distinct non-null
    value, including one that mixes a single value with nulls); it keeps
    every row; in the kept columns every cell is unchanged, except that
    in Age, MonthlyIncome, YearsAtCompany and TotalWorkingYears each cell
    is coerced to a number, an unparseable one becoming the null marker. *)
Theorem clean_data_drops_single_valued_columns
    (parse_numeric : string -> option Z) (self : HRDataModel) (df : DataFrame) :
  df_employee self = Some df ->
  exists df' self',
    clean_data parse_numeric self = Ok (df', self') /\
    df_employee self' = Some df' /\
    (forall col, In col (columns df') <->
                 In col (columns df) /\ ~ single_valued (series df col)) /\
    List.length (rows df') = List.length (rows df) /\
    (forall col, In col (columns df') ->
       series df' col =
         if existsb (String.eqb col) DataPreparation.numeric_cols
         then to_numeric parse_numeric (series df col)
         else series df col) /\
    (forall col, In col DataPreparation.numeric_cols -> In col (columns df') ->
       Forall (fun v => numeric_or_null v = true) (series df' col)).
Proof.
  intro Hdf. unfold clean_data, attribute_of. rewrite Hdf. cbn [bind].
  rewrite (filterM_total _ (fun col => nunique (series df col) <=? 1)).
  2:{ intros col Hcol. apply in_columns_In in Hcol.
      now rewrite (getitem_series _ _ Hcol). }
  cbn [bind].
  set (constant_cols := filter (fun col => nunique (series df col) <=? 1) (columns df)).
  replace (match constant_cols with [] => df | _ :: _ => drop df constant_cols end)
    with (drop df constant_cols)
    by (destruct constant_cols; [apply drop_nothing | reflexivity]).
  destruct (coerce_columns_series parse_numeric DataPreparation.numeric_cols
              (drop df constant_cols)) as [df' [Hrun [Hcols [Hlen Hser]]]].
  rewrite Hrun. cbn [bind].
  assert (Hkept : forall col, In col (columns df') <->
                    In col (columns df) /\ ~ In col constant_cols).
  { intro col. rewrite Hcols. unfold drop. cbn [columns]. rewrite filter_In.
    rewrite negb_true_iff. split; intros [H1 H2]; split; try assumption.
    - intro H. apply existsb_string_In in H. congruence.
    - destruct (existsb (String.eqb col) constant_cols) eqn:E; [|reflexivity].
      apply existsb_string_In in E. contradiction. }
  assert (Hseries : forall col, In col (columns df') ->
            series df' col =
              if existsb (String.eqb col) DataPreparation.numeric_cols
              then to_numeric parse_numeric (series df col)
              else series df col).
  { intros col Hcol. rewrite Hser.
    assert (Hin : in_columns col (drop df constant_cols) = true).
    { apply in_columns_In. now rewrite <- Hcols. }
    rewrite Hin, andb_true_r.
    apply Hkept in Hcol. now rewrite series_drop. }
  exists df', (set_df_employee self df').
  split; [reflexivity|]. split; [reflexivity|].
  split.
  { intro col. rewrite Hkept. unfold constant_cols. rewrite filter_In.
    rewrite <- nunique_single_valued, Z.leb_le. tauto. }
  split.
  { rewrite Hlen. unfold drop. cbn [rows]. apply length_map. }
  split; [exact Hseries|].
  intros col Hnum Hcol. rewrite (Hseries col Hcol).
  apply existsb_string_In in Hnum. rewrite Hnum.
  unfold to_numeric. apply Forall_forall. intros v Hv.
  apply in_map_iff in Hv. destruct Hv as [c [E _]]. subst v.
  apply to_numeric_cell_numeric.
Qed.

Lemma clean_data_drops_single_valued_columns_witness :
  exists df' self',
    clean_data parse_decimal blank_self = Ok (df', self') /\
    df_employee self' = Some df' /\
    (forall col, In col (columns df') <->
                 In col (columns blank_table) /\ ~ single_valued (series blank_table col)) /\
    List.length (rows df') = List.length (rows blank_table) /\
    (forall col, In col (columns df') ->
       series df' col =
         if existsb (String.eqb col) DataPreparation.numeric_cols
         then to_numeric parse_decimal (series blank_table col)
         else series blank_table col) /\
    (forall col, In col DataPreparation.numeric_cols -> In col (columns df') ->
       Forall (fun v => numeric_or_null v = true) (series df' col)).
Proof.
  apply (clean_data_drops_single_valued_columns parse_decimal blank_self blank_table).
  reflexivity.
Defined.

(** ** Ordering floats and sorting *)









Lemma insert_desc_perm (x : string * pyfloat) (l : list (string * pyfloat)) :
  Permutation (x :: l) (insert_desc x l).
Proof.
  induction l as [|y l IH]; simpl; [apply Permutation_refl|].
  destruct (fltb (snd x) (snd y)); [|apply Permutation_refl].
  eapply perm_trans; [apply perm_swap|]. now apply perm_skip.
Qed.

Lemma sorted_desc_perm (l : list (string * pyfloat)) : Permutation l (sorted_desc l).
Proof.
  induction l as [|x l IH]; simpl; [apply perm_nil|].
  eapply perm_trans; [apply perm_skip, IH | apply insert_desc_perm].
Qed.






Lemma firstn_incl {A : Type} (n : nat) (l : list A) (x : A) :
  In x (firstn n l) -> In x l.
Proof.
  revert l. induction n as [|n IH]; intros [|y l] H; simpl in *; try tauto.
  destruct H as [H|H]; [now left | right; now apply IH].
Qed.

Lemma slice_to_incl {A : Type} (n : Z) (l : list A) (x : A) :
  In x (slice_to n l) -> In x l.
Proof. unfold slice_to. destruct (0 <=? n); apply firstn_incl. Qed.

(** ** Key influencers *)

Section KeyInfluencerProperties.

Variable corr : list value -> list value -> pyfloat.
Variable np_round2 : pyfloat -> pyfloat.




Lemma correlations_of_defined (d : DataFrame) (cols : list string) :
  in_columns "AttritionBinary" d = true ->
  correlations_of corr d cols = Ok (defined_correlations corr d cols).
Proof.
  intro Hb. unfold defined_correlations.
  induction cols as [|col cols IH]; [reflexivity|].
  cbn [correlations_of filter].
  destruct (in_columns col d) eqn:Hc; [|exact IH].
  rewrite (getitem_series _ _ Hc), (getitem_series _ _ Hb). cbn [bind].
  rewrite IH. cbn [bind andb]. unfold attrition_corr.
  destruct (isnan (corr (series d col) (series d "AttritionBinary"))); reflexivity.
Qed.

Lemma defined_correlations_ranked (d : DataFrame) :
  Forall (ranked_item corr d) (defined_correlations corr d DaxMeasures.numeric_cols).
Proof.
  apply Forall_forall. intros item H. unfold defined_correlations in H.
  apply in_map_iff in H. destruct H as [col [E H]]. subst item.
  apply filter_In in H. destruct H as [Hin H].
  apply andb_true_iff in H. destruct H as [Hc Hn].
  apply negb_true_iff in Hn. repeat split; assumption.
Qed.

Lemma influencers_of_items (d : DataFrame) (items : list (string * pyfloat)) :
  in_columns "AttritionBinary" d = true ->
  Forall (ranked_item corr d) items ->
  mapM (influencer_of corr np_round2 d) items = Ok (map (influencer_row corr np_round2 d) items).
Proof.
  intros Hb Hitems. apply mapM_total. intros [col k] Hin.
  rewrite Forall_forall in Hitems. destruct (Hitems _ Hin) as [_ [Hc _]].
  simpl in Hc. unfold influencer_of.
  rewrite (getitem_series _ _ Hc), (getitem_series _ _ Hb). reflexivity.
Qed.


Lemma ranking_items_ranked (view : DataFrame) (top_n : Z) :
  Forall (ranked_item corr (with_indicator view))
    (slice_to top_n
       (sorted_desc (defined_correlations corr (with_indicator view) DaxMeasures.numeric_cols))).
Proof.
  apply Forall_forall. intros item H. apply slice_to_incl in H.
  pose proof (defined_correlations_ranked (with_indicator view)) as Hr.
  rewrite Forall_forall in Hr. apply Hr.
  eapply Permutation_in; [apply Permutation_sym, sorted_desc_perm | exact H].
Qed.

Lemma key_influencers_run (view result : DataFrame) (top_n : Z) :
  result = with_indicator view ->
  (correlations <- correlations_of corr result DaxMeasures.numeric_cols ;;
   mapM (influencer_of corr np_round2 result) (slice_to top_n (sorted_desc correlations)))
  = Ok (ranking corr np_round2 view top_n).
Proof.
  intro E. subst result.
  assert (Hb : in_columns "AttritionBinary" (with_indicator view) = true)
    by apply in_columns_setitem_same.
  rewrite (correlations_of_defined _ _ Hb). cbn [bind].
  apply influencers_of_items; [exact Hb | apply ranking_items_ranked].
Qed.


Lemma key_influencers_without_filter (dm : DataModel) (top_n : Z) :
  in_columns "Attrition" (merged dm) = true ->
  identify_key_influencers corr np_round2 dm None top_n =
  (store dm Merged (with_indicator (merged dm)), Ok (ranking corr np_round2 (merged dm) top_n)).
Proof.
  intro Ha. unfold identify_key_influencers.
  cbn [_apply_filters deref table_of].
  rewrite (getitem_series _ _ Ha).
  cbn [assign_column deref table_of store merged].
  f_equal. now apply key_influencers_run.
Qed.






End KeyInfluencerProperties.

(** ** Claim C5 *)




(** ** Claim C2 *)

(** With a filter mapping, even an empty one, the method works on a copy
    and leaves the data model as it was. *)
Lemma key_influencers_with_filter_keeps_model
    (corr : list value -> list value -> pyfloat) (np_round2 : pyfloat -> pyfloat)
    (dm : DataModel) (items : Filters) (top_n : Z) :
  fst (identify_key_influencers corr np_round2 dm (Some items) top_n) = dm.
Proof.
  unfold identify_key_influencers.
  destruct (_apply_filters dm (Shared Merged) (Some items)) as [r|e] eqn:E;
    [|reflexivity].
  unfold _apply_filters in E. apply bind_ok_inv in E.
  destruct E as [d [_ E]]. inv E. cbn [deref].
  destruct (getitem d "Attrition"); reflexivity.
Qed.

(** Without one, the indicator column is written into the merged table of
    the data model. *)
Lemma key_influencers_without_filter_writes
    (corr : list value -> list value -> pyfloat) (np_round2 : pyfloat -> pyfloat)
    (dm : DataModel) (top_n : Z) :
  in_columns "Attrition" (merged dm) = true ->
  merged (fst (identify_key_influencers corr np_round2 dm None top_n)) =
  with_indicator (merged dm).
Proof.
  intro Ha. now rewrite (key_influencers_without_filter corr np_round2 dm top_n Ha).
Qed.

(** C2: the code departs from the claim.  Called without a filter (its
    default), [identify_key_influencers] leaves the merged view of the
    data model with a new column, AttritionBinary, while the same call
    with an empty filter mapping leaves the merged view as it was. *)
Theorem key_influencers_without_filter_changes_merged_view :
  in_columns "AttritionBinary" (merged sample_model) = false /\
  in_columns "AttritionBinary"
    (merged (fst (identify_key_influencers pearson scale_round sample_model None 5))) = true /\
  merged (fst (identify_key_influencers pearson scale_round sample_model None 5))
    <> merged sample_model /\
  merged (fst (identify_key_influencers pearson scale_round sample_model (Some []) 5))
    = merged sample_model.
Proof.
  split; [reflexivity|].
  rewrite (key_influencers_without_filter_writes pearson scale_round sample_model 5 eq_refl).
  split; [apply in_columns_setitem_same|].
  split.
  - intro E.
    assert (H : in_columns "AttritionBinary" (with_indicator (merged sample_model)) = true)
      by apply in_columns_setitem_same.
    rewrite E in H. vm_compute in H. discriminate H.
  - now rewrite key_influencers_with_filter_keeps_model.
Qed.
